(** * noguisteam: wishlist sale checker and owned-library sync

    A shallow embedding of [lib/wishlist.py] and [lib/sync.py].

    - JSON numbers (prices) are rationals [Q]; comparisons of finite
      floats and integers agree with the comparisons of the rationals
      they denote.
    - Python dicts are association lists in insertion order: the order
      of [prices.items()] decides the order of the result rows, and the
      sort is stable, so the order is part of the behaviour.
    - Console output, HTTP requests and [sys.exit] are threaded through
      a small trace-and-exit monad [M]; the remote services are
      functions from a request to its response. *)

From Stdlib Require Import String Ascii ZArith QArith List Bool Lia.
From Stdlib Require Import Permutation Sorted DecimalString.
Import ListNotations.

Open Scope list_scope.
Open Scope string_scope.

(* ------------------------------------------------------------------ *)
(** * Python built-ins used by the program *)

Module Py.

(** [str(n)] for an integer. *)
Definition str (n : Z) : string := NilZero.string_of_int (Z.to_int n).

(** [s.upper()] on ASCII text: the letters a to z are raised, every other
    byte is kept.  Country codes are ASCII; on a string with other letters
    the built-in does more, and a statement that depends on what [upper]
    does to a string says so with [is_ascii]. *)
Definition upper_ascii (c : ascii) : ascii :=
  let n := nat_of_ascii c in
  if (andb (97 <=? n) (n <=? 122))%nat then ascii_of_nat (n - 32) else c.

Fixpoint upper (s : string) : string :=
  match s with
  | EmptyString => EmptyString
  | String c s' => String (upper_ascii c) (upper s')
  end.

(** A string holds the UTF-8 bytes of the Python string: a character
    starts at every byte that is not a continuation byte (10xxxxxx). *)
Definition continuation (c : ascii) : bool :=
  let k := nat_of_ascii c in ((128 <=? k) && (k <? 192))%nat.

(** [s[:n]]: the first [n] characters, with all their bytes. *)
Fixpoint take (n : nat) (s : string) : string :=
  match s with
  | EmptyString => EmptyString
  | String c s' =>
      if continuation c then String c (take n s')
      else match n with
           | O => EmptyString
           | S k => String c (take k s')
           end
  end.

(** [s.replace(old, "")] for a non-empty [old]: every occurrence of [old],
    found scanning from the left, is dropped.  [skip] counts the characters
    of the current occurrence still to drop. *)
Fixpoint remove_from (old : string) (skip : nat) (s : string) : string :=
  match s with
  | EmptyString => EmptyString
  | String c s' =>
      match skip with
      | S k => remove_from old k s'
      | O => if prefix old s
             then remove_from old (Nat.pred (String.length old)) s'
             else String c (remove_from old 0 s')
      end
  end.

Definition remove_all (old s : string) : string := remove_from old 0 s.

(** Truth value of an optional string: [None] and [""] are falsy. *)
Definition truthy (s : option string) : bool :=
  match s with
  | Some (String _ _) => true
  | _ => false
  end.

(** ** Dicts, in insertion order *)

Definition dict (V : Type) : Type := list (string * V).

(** [d[k] = v]: an existing key keeps its position. *)
Fixpoint dict_set {V : Type} (k : string) (v : V) (d : dict V) : dict V :=
  match d with
  | [] => [(k, v)]
  | (k', v') :: d' =>
      if String.eqb k' k then (k, v) :: d' else (k', v') :: dict_set k v d'
  end.

(** [d.get(k)]. *)
Fixpoint dict_get {V : Type} (k : string) (d : dict V) : option V :=
  match d with
  | [] => None
  | (k', v) :: d' => if String.eqb k' k then Some v else dict_get k d'
  end.

Definition keys {V : Type} (d : dict V) : list string := map fst d.
Definition values {V : Type} (d : dict V) : list V := map snd d.

(** ** Numbers *)

(** [a < b] and [a <= b] on JSON numbers. *)
Definition Qltb (a b : Q) : bool := negb (Qle_bool b a).
Definition Qleb (a b : Q) : bool := Qle_bool a b.

(** ** [min(l, key=...)]

    The first element is the candidate; a later element replaces it only
    when its key is strictly smaller.  [None] stands for the [ValueError]
    on an empty sequence. *)
Definition min_step {A : Type} (key : A -> Q) (best d : A) : A :=
  if Qltb (key d) (key best) then d else best.

Definition min_by {A : Type} (key : A -> Q) (l : list A) : option A :=
  match l with
  | [] => None
  | x :: xs => Some (fold_left (min_step key) xs x)
  end.

(** ** [sorted(l, key=..., reverse=...)]

    The built-in sort is stable and only ever asks [<] of two keys.  It is
    modelled by the stable insertion sort: an element is placed before the
    first element whose key is not smaller than its own.  With
    [reverse=True] the list is reversed, sorted, and reversed again, as the
    interpreter does. *)
Section Sorted.
Context {A K : Type}.
Variable ltb : K -> K -> bool.
Variable key : A -> K.

Fixpoint insert (x : A) (l : list A) : list A :=
  match l with
  | [] => [x]
  | y :: l' => if ltb (key y) (key x) then y :: insert x l' else x :: y :: l'
  end.

Definition sort_asc (l : list A) : list A := fold_right insert [] l.

Definition sorted (reverse : bool) (l : list A) : list A :=
  if reverse then rev (sort_asc (rev l)) else sort_asc l.
End Sorted.

End Py.

Import Py.

(* ------------------------------------------------------------------ *)
(** * Data model *)

(** The value stored per ITAD id by [itad_get_prices]. *)
Record PriceRecord : Type := mkPriceRecord {
  current_price    : Q;
  regular_price    : Q;
  discount_percent : Z;
  url              : string;
  store_low        : option Q;
  historical_low   : option Q;
  one_year_low     : option Q
}.

(** A deal tag is the pair (label, colour). *)
Definition DealTag : Type := (string * string)%type.

(** A row assembled by [main]. *)
Record DealResult : Type := mkDealResult {
  r_name             : string;
  r_current_price    : Q;
  r_regular_price    : Q;
  r_discount_percent : Z;
  r_url              : string;
  r_store_low        : option Q;
  r_historical_low   : option Q;
  r_deal_tag         : DealTag
}.

(* ------------------------------------------------------------------ *)
(** * Step 4: classify each deal *)

Inductive TagKey : Type := store_low_tag | historical_low_tag | matching_lowest_tag | on_sale_tag.

Definition DEAL_TAGS (k : TagKey) : DealTag :=
  match k with
  | store_low_tag       => ("🔥 Steam All-Time Low", "bright_red")
  | historical_low_tag  => ("🏆 Cross-Store Low", "dark_orange")
  | matching_lowest_tag => ("🔁 Matching Lowest", "yellow")
  | on_sale_tag         => ("🏷️  On Sale", "green")
  end.

(** [b is not None and current <= b]. *)
Definition at_or_below (current : Q) (baseline : option Q) : bool :=
  match baseline with
  | Some b => Qleb current b
  | None => false
  end.

Definition classify_deal (price_data : PriceRecord) : DealTag :=
  let current := current_price price_data in
  if at_or_below current (store_low price_data) then DEAL_TAGS store_low_tag
  else if at_or_below current (historical_low price_data) then DEAL_TAGS historical_low_tag
  else if at_or_below current (one_year_low price_data) then DEAL_TAGS matching_lowest_tag
  else DEAL_TAGS on_sale_tag.

(* ------------------------------------------------------------------ *)
(** * Step 5: sort results *)

Definition TAG_ORDER : dict Z :=
  [ ("🔥 Steam All-Time Low", 0%Z);
    ("🏆 Cross-Store Low", 1%Z);
    ("🔁 Matching Lowest", 2%Z);
    ("🏷️  On Sale", 3%Z) ].

(** [TAG_ORDER.get(label, 9)]. *)
Definition tag_rank (label : string) : Z :=
  match dict_get label TAG_ORDER with
  | Some n => n
  | None => 9%Z
  end.

(** The three sort keys. *)
Definition discount_key (r : DealResult) : Z := r_discount_percent r.
Definition price_key (r : DealResult) : Q := r_current_price r.
Definition deal_key (r : DealResult) : Z * Q :=
  (tag_rank (fst (r_deal_tag r)), r_current_price r).

(** [<] on pairs: the first components decide unless they are equal. *)
Definition pair_ltb (a b : Z * Q) : bool :=
  if Z.eqb (fst a) (fst b) then Qltb (snd a) (snd b) else Z.ltb (fst a) (fst b).

Definition sort_results (results : list DealResult) (sort_by : string) : list DealResult :=
  if String.eqb sort_by "discount" then
    sorted Z.ltb discount_key true results
  else if String.eqb sort_by "price" then
    sorted Qltb price_key false results
  else
    sorted pair_ltb deal_key false results.

(** The severity rank of the tag the classifier assigns. *)
Definition tier (price_data : PriceRecord) : Z :=
  tag_rank (fst (classify_deal price_data)).

(* ------------------------------------------------------------------ *)
(** * Effects: console, HTTP and [sys.exit] *)

(** What the two remote services are asked. *)
Inductive Request : Type :=
| GetWishlist (key : option string) (steamid : string)
| GetAppDetails (appids : string)
| PostLookup (key : option string) (shop : Z) (shop_ids : list string)
| PostPrices (key : option string) (country : string) (shops : Z) (itad_ids : list string).

Inductive Event : Type :=
| Printed (s : string)
| Requested (q : Request)
| Rendered (title : string) (rows : list DealResult).

Inductive Result (A : Type) : Type :=
| Ret (a : A)
| Exit (code : Z).

Arguments Ret {A} a.
Arguments Exit {A} code.

(** A computation yields the events it caused, in order, and either a
    value or the status [sys.exit] was called with. *)
Definition M (A : Type) : Type := (list Event * Result A)%type.

Definition ret {A : Type} (a : A) : M A := ([], Ret a).

Definition bind {A B : Type} (m : M A) (f : A -> M B) : M B :=
  match m with
  | (t, Exit c) => (t, Exit c)
  | (t, Ret a) => let (t', r) := f a in ((t ++ t')%list, r)
  end.

(** [console.print(s)]: the event records the text handed to the console,
    markup included.  The console reads square brackets in the text as
    markup and rejects a closing tag that closes nothing; the lines of this
    program are well-formed apart from the foreign text they quote, and a
    statement about a line that quotes such text asks it to be free of
    brackets ([no_bracket]). *)
Definition print (s : string) : M unit := ([Printed s], Ret tt).
Definition sys_exit {A : Type} (code : Z) : M A := ([], Exit code).

Declare Scope py_scope.
Delimit Scope py_scope with py.
Notation "x <- c ;; k" := (bind c (fun x => k))
  (at level 61, c at next level, right associativity) : py_scope.
Notation "c ;; k" := (bind c (fun _ => k))
  (at level 61, right associativity) : py_scope.
Open Scope py_scope.

Definition trace {A : Type} (m : M A) : list Event := fst m.
Definition result {A : Type} (m : M A) : Result A := snd m.

(** The status the process ends with: 0 when [main] returns. *)
Definition exit_status (m : M unit) : Z :=
  match result m with
  | Ret _ => 0%Z
  | Exit c => c
  end.

Definition is_request (e : Event) : bool :=
  match e with Requested _ => true | _ => false end.

Definition is_prices_request (e : Event) : bool :=
  match e with Requested (PostPrices _ _ _ _) => true | _ => false end.

(* ------------------------------------------------------------------ *)
(** * The services' answers *)

Record Response (J : Type) : Type := mkResponse {
  status_code : Z;
  text        : string;
  json        : J
}.

Arguments mkResponse {J} _ _ _.
Arguments status_code {J} _.
Arguments text {J} _.
Arguments json {J} _.

(** One entry of [appdetails]: [success] and [data.name] when reported.
    [Unavailable] covers a request or a decoding that raises. *)
Inductive AppDetails : Type :=
| Unavailable
| Detail (success : bool) (name : option string).

(** A deal of the prices response. *)
Record Deal : Type := mkDeal {
  price_amount    : Q;          (* deal["price"]["amount"] *)
  regular_amount  : Q;          (* deal["regular"]["amount"] *)
  cut             : option Z;   (* deal["cut"], when the key is there *)
  deal_url        : option string;  (* deal["url"], when the key is there *)
  storeLow        : option Q    (* deal["storeLow"]["amount"], when the object is there *)
}.

(** An item of the prices response. *)
Record Item : Type := mkItem {
  item_id  : string;            (* item["id"] *)
  deals    : list Deal;         (* item["deals"], [] when missing *)
  low_all  : option Q;          (* item["historyLow"]["all"]["amount"] *)
  low_y1   : option Q           (* item["historyLow"]["y1"]["amount"] *)
}.

Record Services : Type := mkServices {
  (* items of the wishlist feed: the appid of each, when it has one *)
  steam_wishlist   : option string -> string -> Response (list (option Z));
  steam_appdetails : string -> AppDetails;
  (* { "app/1234": "uuid", "app/5678": null, ... } *)
  itad_lookup      : option string -> Z -> list string -> Response (dict (option string));
  (* the items of the answer, each with its deals at the shop asked for *)
  itad_prices      : option string -> string -> Z -> list string -> Response (list Item)
}.

(** Module-level configuration read from the environment. *)
Record Config : Type := mkConfig {
  STEAM_ID      : option string;
  STEAM_API_KEY : option string;
  ITAD_API_KEY  : option string;
  COUNTRY       : string
}.

(** Steam's numeric shop id on ITAD. *)
Definition ITAD_STEAM_SHOP_ID : Z := 61.

Definition nl : string := String (ascii_of_nat 10) EmptyString.

(* ------------------------------------------------------------------ *)
(** * The pipeline *)

Section Pipeline.
Variable cfg : Config.
Variable svc : Services.

(** ** Step 1: fetch the wishlist *)

Definition app_name (app_id : string) (detail : AppDetails) : string :=
  match detail with
  | Detail true (Some name) => name
  | _ => "AppID " ++ app_id
  end.

(** The loop resolving one name per app id, filling [games]. *)
Fixpoint resolve_names (app_ids : list string) (games : dict string) : M (dict string) :=
  match app_ids with
  | [] => ret games
  | app_id :: rest =>
      (Requested (GetAppDetails app_id) :: nil, Ret tt) ;;
      let name := app_name app_id (steam_appdetails svc app_id) in
      resolve_names rest (dict_set app_id name games)
  end.

(** Returns [{ app_id: name }]. *)
Definition fetch_steam_wishlist (steam_id : string) : M (dict string) :=
  print ("[cyan]Fetching Steam wishlist for ID:[/cyan] " ++ steam_id) ;;
  (Requested (GetWishlist (STEAM_API_KEY cfg) steam_id) :: nil, Ret tt) ;;
  let response := steam_wishlist svc (STEAM_API_KEY cfg) steam_id in
  if negb (Z.eqb (status_code response) 200) then
    print ("[red]Steam API error " ++ str (status_code response) ++ ":[/red] "
           ++ take 300 (text response)) ;;
    sys_exit 1
  else
    let items := json response in
    match items with
    | [] =>
        print "[yellow]Wishlist is empty or Steam returned no items.[/yellow]" ;;
        ret []
    | _ =>
        let app_ids :=
          flat_map (fun item => match item with Some appid => [str appid] | None => [] end)
                   items in
        print ("[green]Found " ++ str (Z.of_nat (length app_ids))
               ++ " games in wishlist.[/green]") ;;
        print "[cyan]Resolving game names...[/cyan]" ;;
        resolve_names app_ids []
    end.

(** ** Step 2: ITAD ids from Steam ids *)

(** One iteration of the loop over [data.items()]: a null or empty id is
    passed over. *)
Definition id_step (id_map : dict string) (entry : string * option string) : dict string :=
  match entry with
  | (shop_id, Some itad_uuid) =>
      if truthy (Some itad_uuid)
      then dict_set (remove_all "app/" shop_id) itad_uuid id_map
      else id_map
  | (_, None) => id_map
  end.

Definition collect_ids (data : dict (option string)) : dict string :=
  fold_left id_step data [].

Definition itad_lookup_ids (app_ids : list string) : M (dict string) :=
  let shop_ids := map (fun app_id => "app/" ++ app_id) app_ids in
  (Requested (PostLookup (ITAD_API_KEY cfg) ITAD_STEAM_SHOP_ID shop_ids) :: nil, Ret tt) ;;
  let response := itad_lookup svc (ITAD_API_KEY cfg) ITAD_STEAM_SHOP_ID shop_ids in
  if negb (Z.eqb (status_code response) 200) then
    print ("[red]ITAD lookup error " ++ str (status_code response) ++ ":[/red] "
           ++ take 300 (text response)) ;;
    sys_exit 1
  else
    ret (collect_ids (json response)).

(** ** Step 3: current prices and lows *)

Definition deal_amount (d : Deal) : Q := price_amount d.

(** The record built from an item and its best deal. *)
Definition price_record (item : Item) (best : Deal) : PriceRecord :=
  {| current_price    := price_amount best;
     regular_price    := regular_amount best;
     discount_percent := match cut best with Some c => c | None => 0%Z end;
     url              := match deal_url best with Some u => u | None => "" end;
     store_low        := storeLow best;
     historical_low   := low_all item;
     one_year_low     := low_y1 item |}.

(** One iteration of the loop over the items of the response: an item
    without deals is skipped ([if not deals: continue]), so [min] is only
    taken of a non-empty list. *)
Definition price_step (prices : dict PriceRecord) (item : Item) : dict PriceRecord :=
  match min_by deal_amount (deals item) with
  | None => prices
  | Some best => dict_set (item_id item) (price_record item best) prices
  end.

Definition collect_prices (items : list Item) : dict PriceRecord :=
  fold_left price_step items [].

Definition itad_get_prices (itad_ids : list string) (country : string)
  : M (dict PriceRecord) :=
  (Requested (PostPrices (ITAD_API_KEY cfg) (upper country) ITAD_STEAM_SHOP_ID itad_ids)
     :: nil, Ret tt) ;;
  let response :=
    itad_prices svc (ITAD_API_KEY cfg) (upper country) ITAD_STEAM_SHOP_ID itad_ids in
  if negb (Z.eqb (status_code response) 200) then
    print ("[red]ITAD prices error " ++ str (status_code response) ++ ":[/red] "
           ++ take 300 (text response)) ;;
    sys_exit 1
  else
    ret (collect_prices (json response)).

(** ** Step 6: display (the table's cells are not rendered here) *)

Definition sort_label (sort_by : string) : string :=
  if String.eqb sort_by "deal" then "Best Deal"
  else if String.eqb sort_by "discount" then "Discount %"
  else if String.eqb sort_by "price" then "Price"
  else sort_by.

Definition display_results (results : list DealResult) (sort_by : string) : M unit :=
  match results with
  | [] =>
      print (nl ++ "[yellow]No wishlist games are currently on sale on Steam.[/yellow]")
  | _ =>
      print "" ;;
      (Rendered ("🎮 Steam Wishlist — Current Sales  [dim](sorted by: "
                 ++ sort_label sort_by ++ ")[/dim]") results :: nil, Ret tt) ;;
      print (nl ++ "[dim]" ++ str (Z.of_nat (length results))
             ++ " games on sale | country: " ++ upper (COUNTRY cfg)
             ++ " | sorted by: " ++ sort_label sort_by ++ "[/dim]")
  end.

(** ** Main *)

(** [{v: k for k, v in d.items()}]. *)
Definition invert (d : dict string) : dict string :=
  fold_left (fun acc kv => dict_set (snd kv) (fst kv) acc) d [].

(** One row, from an entry of [prices]. *)
Definition assemble (wishlist itad_to_steam : dict string)
           (entry : string * PriceRecord) : DealResult :=
  let (itad_id, price_d) := entry in
  let steam_app_id :=
    match dict_get itad_id itad_to_steam with Some a => a | None => "" end in
  let name :=
    match dict_get steam_app_id wishlist with
    | Some n => n
    | None => "ITAD:" ++ itad_id
    end in
  {| r_name := name;
     r_current_price := current_price price_d;
     r_regular_price := regular_price price_d;
     r_discount_percent := discount_percent price_d;
     r_url := url price_d;
     r_store_low := store_low price_d;
     r_historical_low := historical_low price_d;
     r_deal_tag := classify_deal price_d |}.

(** [main] from line 332 on: [args_sort] is [args.sort] as [parse_args]
    returned it, one of "deal", "discount" and "price".  A command line
    that [argparse] refuses ends the process inside [parse_args], with
    status 2, before any of this runs. *)
Definition main (args_sort : string) : M unit :=
  if negb (truthy (STEAM_ID cfg)) then
    print "[red]Error:[/red] STEAM_ID is not set in your .env file." ;;
    sys_exit 1
  else if negb (truthy (STEAM_API_KEY cfg)) then
    print "[red]Error:[/red] STEAM_API_KEY is not set in your .env file." ;;
    print "Get one free at: https://steamcommunity.com/dev/apikey" ;;
    sys_exit 1
  else if negb (truthy (ITAD_API_KEY cfg)) then
    print "[red]Error:[/red] ITAD_KEY is not set in your .env file." ;;
    print "Get one free at: https://isthereanydeal.com/apps/my/" ;;
    sys_exit 1
  else
    (* 1. Fetch wishlist *)
    wishlist <- fetch_steam_wishlist
                  (match STEAM_ID cfg with Some s => s | None => "" end) ;;
    match wishlist with
    | [] => sys_exit 0
    | _ =>
        let app_ids := keys wishlist in
        (* 2. Resolve Steam app ids to ITAD ids *)
        print "[cyan]Resolving ITAD game IDs...[/cyan]" ;;
        steam_to_itad <- itad_lookup_ids app_ids ;;
        let itad_to_steam := invert steam_to_itad in
        let itad_ids := values steam_to_itad in
        match itad_ids with
        | [] =>
            print "[red]No games resolved via ITAD. Check your API key.[/red]" ;;
            sys_exit 1
        | _ =>
            print ("[green]Resolved " ++ str (Z.of_nat (length itad_ids)) ++ " / "
                   ++ str (Z.of_nat (length app_ids)) ++ " games.[/green]") ;;
            (* 3. Current prices and historical lows, in one request *)
            print ("[cyan]Fetching prices for country:[/cyan] " ++ upper (COUNTRY cfg)) ;;
            prices <- itad_get_prices itad_ids (COUNTRY cfg) ;;
            match prices with
            | [] =>
                print "[yellow]None of your wishlisted games are currently on sale.[/yellow]" ;;
                sys_exit 0
            | _ =>
                (* 4. Classify and assemble results *)
                let results := map (assemble wishlist itad_to_steam) prices in
                (* 5. Sort and display *)
                let results := sort_results results args_sort in
                display_results results args_sort
            end
        end
    end.

End Pipeline.

(* ------------------------------------------------------------------ *)
(** * The owned-library sync ([lib/sync.py]) *)

Module Sync.

(** A game of the [GetOwnedGames] answer. *)
Record OwnedGame : Type := mkOwnedGame {
  g_appid             : Z;
  g_name              : string;
  g_playtime_forever  : option Z;
  g_rtime_last_played : option Z
}.

(** A row of the [games] table; [appid] is its INTEGER PRIMARY KEY. *)
Record Row : Type := mkRow {
  appid            : Z;
  name             : string;
  playtime_forever : Z;
  last_played      : Z;
  installed        : Z
}.

(** The table is the list of its rows, oldest insertion first. *)
Definition Table : Type := list Row.

(** The primary-key constraint: no two rows share an appid. *)
Definition primary_key_ok (t : Table) : Prop := NoDup (map appid t).

(** [INSERT OR REPLACE]: the rows the new one conflicts with on the
    primary key are deleted, then the new row is inserted. *)
Definition insert_or_replace (r : Row) (t : Table) : Table :=
  (filter (fun r' => negb (Z.eqb (appid r') (appid r))) t ++ [r])%list.

Section Run.
(** [os.path.expanduser("~")] and [os.path.exists]. *)
Variable home : string.
Variable path_exists : string -> bool.

Definition steamapps_path : string := home ++ "/.steam/steam/steamapps/".

Definition get_or (default : Z) (v : option Z) : Z :=
  match v with Some x => x | None => default end.

(** The parameters bound by one iteration of the loop. *)
Definition row_of (g : OwnedGame) : Row :=
  let appid := g_appid g in
  let last_played := get_or 0 (g_rtime_last_played g) in
  let installed :=
    if path_exists (steamapps_path ++ "appmanifest_" ++ str appid ++ ".acf")
    then 1%Z else 0%Z in
  {| appid := appid;
     name := g_name g;
     playtime_forever := get_or 0 (g_playtime_forever g);
     last_played := last_played;
     installed := installed |}.

(** The loop over [games], on the table found in the database, when every
    statement executes. *)
Definition upsert_all (games : list OwnedGame) (t : Table) : Table :=
  fold_left (fun t g => insert_or_replace (row_of g) t) games t.

(** SQLite stores an INTEGER in 64 bits: binding a Python int outside that
    range raises OverflowError. *)
Definition fits_int64 (n : Z) : bool :=
  (Z.leb (- 2 ^ 63) n && Z.ltb n (2 ^ 63))%bool.

Definition bindable (r : Row) : bool :=
  (fits_int64 (appid r) && fits_int64 (playtime_forever r)
   && fits_int64 (last_played r) && fits_int64 (installed r))%bool.

(** The loop as it runs: it stops at the first statement whose parameters
    cannot be bound ([None]). *)
Fixpoint execute_all (games : list OwnedGame) (t : Table) : option Table :=
  match games with
  | [] => Some t
  | g :: rest =>
      if bindable (row_of g)
      then execute_all rest (insert_or_replace (row_of g) t)
      else None
  end.

Inductive Outcome : Type :=
| ValueError
| HTTPError
| OverflowError
| Committed (t : Table).

(** The script: [db] is the [games] table of [steam_games.db] before
    the run ([[]] when the table is created by this run), [response]
    the answer of the service with [response.json()["response"].get("games")]. *)
Definition run (STEAM_API_KEY STEAM_ID : option string)
           (response : Response (option (list OwnedGame))) (db : Table) : Outcome :=
  if negb (truthy STEAM_API_KEY) || negb (truthy STEAM_ID) then ValueError
  else if (Z.leb 400 (status_code response) && Z.ltb (status_code response) 600)%bool
  then HTTPError                                   (* raise_for_status *)
  else
    let games := match json response with Some gs => gs | None => [] end in
    match execute_all games db with
    | Some t => Committed t                          (* conn.commit() *)
    | None => OverflowError
    end.

(** The [games] table once the script has ended.  The two early errors
    are raised before the database is opened; an OverflowError leaves the
    loop inside the open transaction, which is never committed.  In each
    case the rows are those found. *)
Definition table_after (STEAM_API_KEY STEAM_ID : option string)
           (response : Response (option (list OwnedGame))) (db : Table) : Table :=
  match run STEAM_API_KEY STEAM_ID response db with
  | Committed t => t
  | _ => db
  end.
End Run.

End Sync.

(* ------------------------------------------------------------------ *)
(** * Properties stated in the specification's words *)

(** The conditions of tiers 0, 1 and 2: the baseline is present and the
    current price does not exceed it. *)
Definition meets (current : Q) (baseline : option Q) : Prop :=
  exists b, baseline = Some b /\ (current <= b)%Q.

Definition store_low_cond (p : PriceRecord) : Prop := meets (current_price p) (store_low p).
Definition historical_low_cond (p : PriceRecord) : Prop := meets (current_price p) (historical_low p).
Definition one_year_low_cond (p : PriceRecord) : Prop := meets (current_price p) (one_year_low p).

(** In a list sorted on [key] with [<], no element stands before one with
    a smaller key. *)
Definition not_after {A K : Type} (ltb : K -> K -> bool) (key : A -> K) (a b : A) : Prop :=
  ltb (key b) (key a) = false.

(** The severity rank of a row and the order of the "deal" strategy:
    by rank, and by price among equal ranks. *)
Definition rank (r : DealResult) : Z := tag_rank (fst (r_deal_tag r)).

Definition deal_le (a b : DealResult) : Prop :=
  (rank a < rank b)%Z \/ (rank a = rank b /\ (r_current_price a <= r_current_price b)%Q).

Definition price_le (a b : DealResult) : Prop :=
  (r_current_price a <= r_current_price b)%Q.

Definition defined_tier (label : string) : Prop :=
  exists n, dict_get label TAG_ORDER = Some n.

(** Rows whose key equals [k], for the two single-key strategies. *)
Definition same_price (k : Q) (r : DealResult) : bool := Qeq_bool (r_current_price r) k.
Definition same_discount (k : Z) (r : DealResult) : bool := Z.eqb (r_discount_percent r) k.
Definition same_rank (k : Z) (r : DealResult) : bool := Z.eqb (rank r) k.

(** The run reaches the resolver and the resolver yields no mapping. *)
Definition resolves_nothing (cfg : Config) (svc : Services) : Prop :=
  truthy (STEAM_ID cfg) = true /\
  truthy (STEAM_API_KEY cfg) = true /\
  truthy (ITAD_API_KEY cfg) = true /\
  exists steam_id wishlist,
    STEAM_ID cfg = Some steam_id /\
    result (fetch_steam_wishlist cfg svc steam_id) = Ret wishlist /\
    wishlist <> [] /\
    result (itad_lookup_ids cfg svc (keys wishlist)) = Ret [].

(** The answer to the one request [itad_get_prices] makes. *)
Definition prices_response (cfg : Config) (svc : Services) (itad_ids : list string)
           (country : string) : Response (list Item) :=
  itad_prices svc (ITAD_API_KEY cfg) (upper country) ITAD_STEAM_SHOP_ID itad_ids.

(** The answer to the one request [itad_lookup_ids] makes. *)
Definition lookup_response (cfg : Config) (svc : Services) (app_ids : list string)
  : Response (dict (option string)) :=
  itad_lookup svc (ITAD_API_KEY cfg) ITAD_STEAM_SHOP_ID
              (map (fun app_id => "app/" ++ app_id) app_ids).

Definition is_rendered (e : Event) : bool :=
  match e with Rendered _ _ => true | _ => false end.

(** An event before the pricing stage: neither a prices request nor a
    rendered table. *)
Definition quiet (e : Event) : Prop :=
  is_prices_request e = false /\ is_rendered e = false.

(** The requests of a trace. *)
Definition requests (t : list Event) : list Event := filter is_request t.

(** The last line printed in a trace. *)
Definition last_printed (t : list Event) : option string :=
  fold_left (fun acc e => match e with Printed s => Some s | _ => acc end) t None.

(** A row of the table whose appid no game of the answer carries. *)
Definition untouched (games : list Sync.OwnedGame) (r : Sync.Row) : bool :=
  forallb (fun g => negb (Z.eqb (Sync.appid r) (Sync.g_appid g))) games.

(** The service answered without an error status. *)
Definition http_ok {J : Type} (response : Response J) : Prop :=
  (status_code response < 400)%Z \/ (600 <= status_code response)%Z.

(* ------------------------------------------------------------------ *)
(** * Sample inputs *)

Module Sample.

Definition cfg : Config :=
  {| STEAM_ID := Some "76561198000000000";
     STEAM_API_KEY := Some "steam-key";
     ITAD_API_KEY := Some "itad-key";
     COUNTRY := "br" |}.

(** One wishlisted game, "Beta" (app 20), unknown to the pricing service. *)
Definition svc_unmapped : Services :=
  {| steam_wishlist := fun _ _ => mkResponse 200 "" [Some 20%Z];
     steam_appdetails := fun _ => Detail true (Some "Beta");
     itad_lookup := fun _ _ _ => mkResponse 200 "" [("app/20", None)];
     itad_prices := fun _ _ _ _ => mkResponse 200 "" [] |}.

(** A lookup service answering an empty request with an empty object. *)
Definition svc_empty : Services :=
  {| steam_wishlist := fun _ _ => mkResponse 200 "" [];
     steam_appdetails := fun _ => Unavailable;
     itad_lookup := fun _ _ _ => mkResponse 200 "" [];
     itad_prices := fun _ _ _ _ => mkResponse 200 "" [] |}.

Definition deal (amount : Q) (c : option Z) (u : option string) (low : option Q) : Deal :=
  {| price_amount := amount; regular_amount := 20; cut := c; deal_url := u;
     storeLow := low |}.

(** Two items: three offers with a tie for the lowest, and no offer. *)
Definition item_u1 : Item :=
  {| item_id := "u1";
     deals := [deal 9 (Some 10%Z) (Some "a") None; deal 5 None None (Some 4);
               deal 5 (Some 50%Z) (Some "c") None];
     low_all := Some 4; low_y1 := None |}.

Definition item_u2 : Item :=
  {| item_id := "u2"; deals := []; low_all := None; low_y1 := None |}.

Definition svc_prices : Services :=
  {| steam_wishlist := fun _ _ => mkResponse 200 "" [Some 10%Z];
     steam_appdetails := fun _ => Detail true (Some "Alpha");
     itad_lookup := fun _ _ _ => mkResponse 200 "" [("app/10", Some "u1")];
     itad_prices := fun _ _ _ _ => mkResponse 200 "" [item_u1; item_u2] |}.

(** A record at its store low and at its historical low at once. *)
Definition both_lows : PriceRecord :=
  {| current_price := 5; regular_price := 10; discount_percent := 50; url := "";
     store_low := Some 5; historical_low := Some 6; one_year_low := None |}.

(** An owned game, and two states of the disk: its manifest missing or there. *)
Definition game10 : Sync.OwnedGame :=
  {| Sync.g_appid := 10; Sync.g_name := "Alpha";
     Sync.g_playtime_forever := Some 3%Z; Sync.g_rtime_last_played := None |}.

Definition no_manifest : string -> bool := fun _ => false.
Definition manifest_there : string -> bool := fun _ => true.

Definition owned : Response (option (list Sync.OwnedGame)) :=
  mkResponse 200 "" (Some [game10]).

Definition old_row : Sync.Row :=
  {| Sync.appid := 10; Sync.name := "Old"; Sync.playtime_forever := 0;
     Sync.last_played := 0; Sync.installed := 0 |}.

(** Four rows: two "on sale" at the same price, one of an unknown tag,
    one cross-store low. *)
Definition row (n : string) (price : Q) (discount : Z) (label : string) : DealResult :=
  {| r_name := n; r_current_price := price; r_regular_price := 20;
     r_discount_percent := discount; r_url := ""; r_store_low := None;
     r_historical_low := None; r_deal_tag := (label, "green") |}.

Definition rows : list DealResult :=
  [ row "X" 9 10 "🏷️  On Sale"; row "M" 1 5 "mystery";
    row "Y" 15 50 "🏆 Cross-Store Low"; row "Z" 9 50 "🏷️  On Sale" ].

End Sample.

(* ------------------------------------------------------------------ *)
(** * Further vocabulary *)

(** The order of the "discount" strategy: higher discounts first. *)
Definition discount_ge (a b : DealResult) : Prop :=
  (r_discount_percent b <= r_discount_percent a)%Z.

(** Rows of rank [k] and price [p]: one key class of the "deal" strategy. *)
Definition same_deal_key (k : Z) (p : Q) (r : DealResult) : bool :=
  Z.eqb (rank r) k && Qeq_bool (r_current_price r) p.

(** Two records that differ at most in price, discount and url. *)
Definition same_baselines (p p' : PriceRecord) : Prop :=
  store_low p = store_low p' /\
  historical_low p = historical_low p' /\
  one_year_low p = one_year_low p'.

(** The first occurrence of each string, in order: the key order of a
    dict filled by assignments in that order. *)
Fixpoint first_seen (l : list string) : list string :=
  match l with
  | [] => []
  | x :: l' => x :: filter (fun y => negb (String.eqb y x)) (first_seen l')
  end.

(** Membership test on keys. *)
Definition mem (k : string) (ks : list string) : bool := existsb (String.eqb k) ks.

(** The app ids [fetch_steam_wishlist] reads off the feed. *)
Definition feed_app_ids (items : list (option Z)) : list string :=
  flat_map (fun item => match item with Some appid => [str appid] | None => [] end) items.

(** The answer to the wishlist request. *)
Definition wishlist_response (cfg : Config) (svc : Services) (steam_id : string)
  : Response (list (option Z)) :=
  steam_wishlist svc (STEAM_API_KEY cfg) steam_id.

Definition has_deals (item : Item) : bool :=
  match deals item with [] => false | _ :: _ => true end.

(** A string without the letter a. *)
Fixpoint no_a (s : string) : bool :=
  match s with
  | EmptyString => true
  | String c s' => negb (Ascii.eqb c "a") && no_a s'
  end.

(** The items with deals, each with the deal [min] selects. *)
Definition selected (items : list Item) : list (Item * Deal) :=
  flat_map (fun item => match min_by deal_amount (deals item) with
                        | Some best => [(item, best)]
                        | None => []
                        end) items.

(** The three credentials are set; [steam_id] is the Steam id. *)
Definition configured (cfg : Config) (steam_id : string) : Prop :=
  truthy (STEAM_ID cfg) = true /\
  truthy (STEAM_API_KEY cfg) = true /\
  truthy (ITAD_API_KEY cfg) = true /\
  STEAM_ID cfg = Some steam_id.

(** An event other than a batch request with an empty batch. *)
Definition batch_ok (e : Event) : Prop :=
  match e with
  | Requested (PostLookup _ _ shop_ids) => shop_ids <> []
  | Requested (PostPrices _ _ _ itad_ids) => itad_ids <> []
  | _ => True
  end.

(** A computation that, if it exits, exits with one of [codes]. *)
Definition exits_within {A : Type} (codes : list Z) (m : M A) : Prop :=
  match result m with
  | Exit c => In c codes
  | Ret _ => True
  end.



(** The run passes the wishlist stage with a non-empty wishlist. *)
Definition reaches_lookup (cfg : Config) (svc : Services) (steam_id : string)
           (wishlist : dict string) : Prop :=
  configured cfg steam_id /\
  result (fetch_steam_wishlist cfg svc steam_id) = Ret wishlist /\
  wishlist <> [].

(** The run passes the resolver stage with at least one id resolved. *)
Definition reaches_pricing (cfg : Config) (svc : Services) (steam_id : string)
           (wishlist steam_to_itad : dict string) : Prop :=
  reaches_lookup cfg svc steam_id wishlist /\
  result (itad_lookup_ids cfg svc (keys wishlist)) = Ret steam_to_itad /\
  values steam_to_itad <> [].

(** The events of a run up to the prices request. *)
Definition before_pricing (cfg : Config) (svc : Services) (steam_id : string)
           (wishlist steam_to_itad : dict string) : list Event :=
  (trace (fetch_steam_wishlist cfg svc steam_id)
   ++ [Printed "[cyan]Resolving ITAD game IDs...[/cyan]"]
   ++ trace (itad_lookup_ids cfg svc (keys wishlist))
   ++ [ Printed ("[green]Resolved " ++ str (Z.of_nat (length (values steam_to_itad)))
                 ++ " / " ++ str (Z.of_nat (length (keys wishlist))) ++ " games.[/green]");
        Printed ("[cyan]Fetching prices for country:[/cyan] " ++ upper (COUNTRY cfg)) ])%list.

(** The rows [main] hands to the display. *)
Definition ranked_rows (wishlist steam_to_itad : dict string) (prices : dict PriceRecord)
           (sort_by : string) : list DealResult :=
  sort_results (map (assemble wishlist (invert steam_to_itad)) prices) sort_by.

(** The games of the answer: [response.json()["response"].get("games", [])]. *)
Definition games_of (response : Response (option (list Sync.OwnedGame)))
  : list Sync.OwnedGame :=
  match json response with Some gs => gs | None => [] end.

(** The row of the table with primary key [k]. *)
Definition row_with (k : Z) (t : Sync.Table) : option Sync.Row :=
  find (fun r => Z.eqb (Sync.appid r) k) t.

(** A text without a square bracket: the console finds no markup in it. *)
Fixpoint no_bracket (s : string) : bool :=
  match s with
  | EmptyString => true
  | String c s' => negb (Ascii.eqb c "[") && no_bracket s'
  end.

(** A text of ASCII characters only. *)
Fixpoint is_ascii (s : string) : bool :=
  match s with
  | EmptyString => true
  | String c s' => (nat_of_ascii c <? 128)%nat && is_ascii s'
  end.

(** Every statement of the sync loop can be bound. *)
Definition all_bindable (home : string) (path_exists : string -> bool)
           (games : list Sync.OwnedGame) : bool :=
  forallb (fun g => Sync.bindable (Sync.row_of home path_exists g)) games.

(** The values [parse_args] lets through for [--sort]. *)
Definition sort_choices : list string := ["deal"; "discount"; "price"].

Module Fixture.

(** The record of [Sample.both_lows] at a higher price, above both lows. *)
Definition dearer : PriceRecord :=
  {| current_price := 8; regular_price := 10; discount_percent := 20; url := "";
     store_low := Some 5; historical_low := Some 6; one_year_low := None |}.

(** A feed of four items: app 10 twice, one item without appid, app 20.
    Only app 10 has details. *)
Definition svc_feed : Services :=
  {| steam_wishlist := fun _ _ => mkResponse 200 "" [Some 10%Z; None; Some 20%Z; Some 10%Z];
     steam_appdetails :=
       fun id => if String.eqb id "10" then Detail true (Some "Alpha") else Detail false None;
     itad_lookup :=
       fun _ _ _ => mkResponse 200 "" [("app/10", Some "u1"); ("app/20", None)];
     itad_prices := fun _ _ _ _ => mkResponse 200 "" [Sample.item_u1; Sample.item_u2] |}.

(** Every service is down. *)
Definition svc_down : Services :=
  {| steam_wishlist := fun _ _ => mkResponse 503 "Service Unavailable" [];
     steam_appdetails := fun _ => Unavailable;
     itad_lookup := fun _ _ _ => mkResponse 503 "Service Unavailable" [];
     itad_prices := fun _ _ _ _ => mkResponse 503 "Service Unavailable" [] |}.

(** A lookup answer with a null, an empty id and two resolved ids. *)
Definition svc_lookup : Services :=
  {| steam_wishlist := fun _ _ => mkResponse 200 "" [Some 10%Z; Some 20%Z];
     steam_appdetails := fun _ => Unavailable;
     itad_lookup :=
       fun _ _ _ => mkResponse 200 ""
                      [("app/10", Some "u1"); ("app/20", None); ("app/30", Some "");
                       ("app/40", Some "u4")];
     itad_prices := fun _ _ _ _ => mkResponse 200 "" [] |}.

Definition names : dict string := [("10", "Alpha"); ("20", "Beta")].
Definition resolved : dict string := [("10", "u1"); ("20", "u2")].

(** The id u1 with deals twice, around an item without deals and u3. *)
Definition item_u3 : Item :=
  {| item_id := "u3"; deals := [Sample.deal 7 (Some 30%Z) (Some "d") None];
     low_all := None; low_y1 := None |}.

Definition svc_repeat : Services :=
  {| steam_wishlist := fun _ _ => mkResponse 200 "" [Some 10%Z; Some 30%Z];
     steam_appdetails := fun _ => Detail true (Some "Game");
     itad_lookup :=
       fun _ _ _ => mkResponse 200 "" [("app/10", Some "u1"); ("app/30", Some "u3")];
     itad_prices :=
       fun _ _ _ _ => mkResponse 200 ""
                        [Sample.item_u1; Sample.item_u2; item_u3; Sample.item_u1] |}.

(** The wishlist resolves, then the lookup service is down. *)
Definition svc_lookup_down : Services :=
  {| steam_wishlist := fun _ _ => mkResponse 200 "" [Some 10%Z];
     steam_appdetails := fun _ => Detail true (Some "Alpha");
     itad_lookup := fun _ _ _ => mkResponse 503 "Service Unavailable" [];
     itad_prices := fun _ _ _ _ => mkResponse 200 "" [Sample.item_u1] |}.

(** The ids resolve, then the prices service is down. *)
Definition svc_prices_down : Services :=
  {| steam_wishlist := fun _ _ => mkResponse 200 "" [Some 10%Z];
     steam_appdetails := fun _ => Detail true (Some "Alpha");
     itad_lookup := fun _ _ _ => mkResponse 200 "" [("app/10", Some "u1")];
     itad_prices := fun _ _ _ _ => mkResponse 503 "Service Unavailable" [] |}.

(** The ids resolve, and no item has a deal. *)
Definition svc_no_sale : Services :=
  {| steam_wishlist := fun _ _ => mkResponse 200 "" [Some 10%Z];
     steam_appdetails := fun _ => Detail true (Some "Alpha");
     itad_lookup := fun _ _ _ => mkResponse 200 "" [("app/10", Some "u1")];
     itad_prices := fun _ _ _ _ => mkResponse 200 "" [Sample.item_u2] |}.

(** No ITAD key in the environment. *)
Definition cfg_no_itad_key : Config :=
  {| STEAM_ID := Some "76561198000000000"; STEAM_API_KEY := Some "steam-key";
     ITAD_API_KEY := None; COUNTRY := "US" |}.

(** An answer naming app 10 twice, around app 20; no playtime for app 20. *)
Definition game10_renamed : Sync.OwnedGame :=
  {| Sync.g_appid := 10; Sync.g_name := "Alpha Remastered";
     Sync.g_playtime_forever := Some 7%Z; Sync.g_rtime_last_played := Some 1700000000%Z |}.

Definition game20 : Sync.OwnedGame :=
  {| Sync.g_appid := 20; Sync.g_name := "Beta";
     Sync.g_playtime_forever := None; Sync.g_rtime_last_played := None |}.

Definition owned3 : Response (option (list Sync.OwnedGame)) :=
  mkResponse 200 "" (Some [Sample.game10; game20; game10_renamed]).

Definition row30 : Sync.Row :=
  {| Sync.appid := 30; Sync.name := "Gamma"; Sync.playtime_forever := 5;
     Sync.last_played := 0; Sync.installed := 1 |}.

Definition forbidden : Response (option (list Sync.OwnedGame)) :=
  mkResponse 403 "Forbidden" None.

(** An answer whose second game has an appid beyond 64 bits. *)
Definition game_huge : Sync.OwnedGame :=
  {| Sync.g_appid := 2 ^ 63; Sync.g_name := "Huge";
     Sync.g_playtime_forever := Some 1%Z; Sync.g_rtime_last_played := None |}.

Definition owned_huge : Response (option (list Sync.OwnedGame)) :=
  mkResponse 200 "" (Some [Sample.game10; game_huge]).

End Fixture.

(* ------------------------------------------------------------------ *)
(** * Facts about the built-ins *)

Section SortedFacts.
Context {A K : Type}.
Variable ltb : K -> K -> bool.
Variable key : A -> K.

Lemma insert_perm (x : A) (l : list A) : Permutation (x :: l) (insert ltb key x l).
Proof.
  induction l as [|y l IH]; simpl.
  - apply Permutation_refl.
  - destruct (ltb (key y) (key x)).
    + apply perm_trans with (y :: x :: l).
      * apply perm_swap.
      * apply perm_skip, IH.
    + apply Permutation_refl.
Qed.

Lemma sort_asc_perm (l : list A) : Permutation l (sort_asc ltb key l).
Proof.
  induction l as [|x l IH]; simpl.
  - apply perm_nil.
  - apply perm_trans with (x :: sort_asc ltb key l).
    + apply perm_skip, IH.
    + apply insert_perm.
Qed.

Lemma sorted_perm (reverse : bool) (l : list A) :
  Permutation l (sorted ltb key reverse l).
Proof.
  unfold sorted. destruct reverse.
  - apply perm_trans with (rev l).
    + apply Permutation_rev.
    + apply perm_trans with (sort_asc ltb key (rev l)).
      * apply sort_asc_perm.
      * apply Permutation_rev.
  - apply sort_asc_perm.
Qed.

(** Stability: a class of elements that [<] never separates keeps its
    order. *)
Section Stable.
Variable p : A -> bool.
Hypothesis p_unordered :
  forall x y, p x = true -> p y = true -> ltb (key y) (key x) = false.

Lemma insert_filter (x : A) (l : list A) :
  filter p (insert ltb key x l) = filter p (x :: l).
Proof.
  induction l as [|y l IH].
  - reflexivity.
  - simpl insert. destruct (ltb (key y) (key x)) eqn:Hlt.
    + simpl. simpl in IH. rewrite IH.
      destruct (p x) eqn:Hx, (p y) eqn:Hy; try reflexivity.
      rewrite (p_unordered x y Hx Hy) in Hlt. discriminate.
    + reflexivity.
Qed.

Lemma sort_asc_filter (l : list A) :
  filter p (sort_asc ltb key l) = filter p l.
Proof.
  induction l as [|x l IH].
  - reflexivity.
  - simpl sort_asc. rewrite insert_filter. simpl. rewrite IH. reflexivity.
Qed.

Lemma filter_rev (l : list A) : filter p (rev l) = rev (filter p l).
Proof.
  induction l as [|x l IH]; simpl.
  - reflexivity.
  - rewrite filter_app, IH. simpl. destruct (p x); simpl.
    + reflexivity.
    + apply app_nil_r.
Qed.

Lemma sorted_filter (reverse : bool) (l : list A) :
  filter p (sorted ltb key reverse l) = filter p l.
Proof.
  unfold sorted. destruct reverse.
  - rewrite filter_rev, sort_asc_filter, filter_rev. apply rev_involutive.
  - apply sort_asc_filter.
Qed.
End Stable.

(** Order: when [<] is asymmetric and "not greater" is transitive, the
    ascending sort leaves no element before a smaller one. *)
Section Ordered.
Let not_after := not_after ltb key.

Hypothesis ltb_asym : forall a b, ltb (key a) (key b) = true -> ltb (key b) (key a) = false.
Hypothesis not_after_trans : forall a b c, not_after a b -> not_after b c -> not_after a c.

Lemma insert_sorted (x : A) (l : list A) :
  StronglySorted not_after l -> StronglySorted not_after (insert ltb key x l).
Proof.
  induction l as [|y l IH]; intros Hs; simpl.
  - constructor; constructor.
  - inversion Hs as [|y' l' Hl Hy]; subst.
    destruct (ltb (key y) (key x)) eqn:Hlt.
    + constructor.
      * apply IH, Hl.
      * apply Forall_forall. intros z Hz.
        apply (Permutation_in z (Permutation_sym (insert_perm x l))) in Hz.
        destruct Hz as [<- | Hz].
        -- apply ltb_asym, Hlt.
        -- rewrite Forall_forall in Hy. apply Hy, Hz.
    + constructor.
      * exact Hs.
      * constructor.
        -- exact Hlt.
        -- apply Forall_forall. intros z Hz. rewrite Forall_forall in Hy.
           apply not_after_trans with y; [exact Hlt | apply Hy, Hz].
Qed.

Lemma sort_asc_sorted (l : list A) : StronglySorted not_after (sort_asc ltb key l).
Proof.
  induction l as [|x l IH]; simpl.
  - constructor.
  - apply insert_sorted, IH.
Qed.
End Ordered.
End SortedFacts.

Lemma StronglySorted_filter_weaken {A : Type} (R R' : A -> A -> Prop) (p : A -> bool) (l : list A) :
  (forall a b, p a = true -> p b = true -> R a b -> R' a b) ->
  StronglySorted R l -> StronglySorted R' (filter p l).
Proof.
  intros Himp Hs. induction Hs as [|a l Hs IH Ha]; simpl.
  - constructor.
  - destruct (p a) eqn:Hpa.
    + constructor.
      * exact IH.
      * apply Forall_forall. intros b Hb. apply filter_In in Hb as [Hb Hpb].
        rewrite Forall_forall in Ha. apply Himp; auto.
    + exact IH.
Qed.

Lemma StronglySorted_weaken {A : Type} (R R' : A -> A -> Prop) (l : list A) :
  (forall a b, R a b -> R' a b) -> StronglySorted R l -> StronglySorted R' l.
Proof.
  intros Himp Hs. induction Hs as [|a l Hs IH Ha].
  - constructor.
  - constructor.
    + exact IH.
    + eapply Forall_impl; [|exact Ha]. intros b. apply Himp.
Qed.

Lemma StronglySorted_split {A : Type} (R : A -> A -> Prop) (pre : list A) (a : A) (post : list A) :
  StronglySorted R (pre ++ a :: post)%list -> Forall (R a) post.
Proof.
  induction pre as [|x pre IH]; simpl; intros Hs.
  - apply StronglySorted_inv in Hs. apply Hs.
  - apply StronglySorted_inv in Hs. apply IH, Hs.
Qed.

(** ** Comparisons of numbers *)

Lemma Qltb_true (a b : Q) : Qltb a b = true <-> (a < b)%Q.
Proof.
  unfold Qltb. rewrite negb_true_iff. split.
  - intros H. apply Qnot_le_lt. intros Hle.
    apply Qle_bool_iff in Hle. congruence.
  - intros H. destruct (Qle_bool b a) eqn:E; [|reflexivity].
    apply Qle_bool_iff in E. exfalso. exact (Qlt_not_le _ _ H E).
Qed.

Lemma Qltb_false (a b : Q) : Qltb a b = false <-> (b <= a)%Q.
Proof.
  unfold Qltb. rewrite negb_false_iff. apply Qle_bool_iff.
Qed.

Lemma at_or_below_meets (current : Q) (baseline : option Q) :
  at_or_below current baseline = true <-> meets current baseline.
Proof.
  unfold at_or_below, meets, Qleb. destruct baseline as [b|].
  - rewrite Qle_bool_iff. split.
    + intros H. exists b. auto.
    + intros [b' [E H]]. injection E as ->. exact H.
  - split; [discriminate|]. intros [b [E _]]. discriminate.
Qed.

(** ** The order of the "deal" strategy *)

Lemma pair_not_after (a b : DealResult) : not_after pair_ltb deal_key a b <-> deal_le a b.
Proof.
  unfold not_after, pair_ltb, deal_key, deal_le, rank. simpl.
  destruct (Z.eqb_spec (tag_rank (fst (r_deal_tag b))) (tag_rank (fst (r_deal_tag a)))) as [E|N].
  - rewrite Qltb_false. rewrite E. split.
    + intros H. right. auto.
    + intros [H|[_ H]]; [lia | exact H].
  - rewrite Z.ltb_ge. split.
    + intros H. left. lia.
    + intros [H|[H _]]; [lia | congruence].
Qed.

Lemma deal_le_trans (a b c : DealResult) : deal_le a b -> deal_le b c -> deal_le a c.
Proof.
  unfold deal_le. intros [H1|[E1 P1]] [H2|[E2 P2]].
  - left. lia.
  - left. lia.
  - left. lia.
  - right. split; [lia | eapply Qle_trans; eauto].
Qed.

Lemma pair_ltb_asym (a b : DealResult) :
  pair_ltb (deal_key a) (deal_key b) = true -> pair_ltb (deal_key b) (deal_key a) = false.
Proof.
  intros H. apply pair_not_after.
  unfold pair_ltb, deal_key, deal_le, rank in *. simpl in *.
  destruct (Z.eqb_spec (tag_rank (fst (r_deal_tag a))) (tag_rank (fst (r_deal_tag b)))) as [E|N].
  - right. split; [exact E|]. apply Qlt_le_weak, Qltb_true, H.
  - left. apply Z.ltb_lt, H.
Qed.

Lemma deal_sort_sorted (results : list DealResult) :
  StronglySorted deal_le (sorted pair_ltb deal_key false results).
Proof.
  apply StronglySorted_weaken with (R := not_after pair_ltb deal_key).
  - intros a b. apply pair_not_after.
  - apply sort_asc_sorted.
    + apply pair_ltb_asym.
    + intros a b c Hab Hbc. apply pair_not_after.
      apply deal_le_trans with b; apply pair_not_after; assumption.
Qed.

(** ** The ranks of the tag table *)

Lemma defined_rank_le_3 (label : string) (n : Z) :
  dict_get label TAG_ORDER = Some n -> (0 <= n <= 3)%Z.
Proof.
  unfold TAG_ORDER. cbn [dict_get].
  repeat match goal with
         | |- context [String.eqb ?x ?y] => destruct (String.eqb x y)
         end; intros H; try discriminate; injection H as E; lia.
Qed.

Lemma undefined_rank (label : string) : ~ defined_tier label -> tag_rank label = 9%Z.
Proof.
  unfold defined_tier, tag_rank. intros H.
  destruct (dict_get label TAG_ORDER) as [n|]; [|reflexivity].
  exfalso. apply H. exists n. reflexivity.
Qed.

Lemma defined_rank (label : string) : defined_tier label -> (0 <= tag_rank label <= 3)%Z.
Proof.
  unfold defined_tier, tag_rank. intros [n H]. rewrite H.
  apply (defined_rank_le_3 label n H).
Qed.

(* ------------------------------------------------------------------ *)
(** * The classifier *)

Lemma classify_deal_cases (p : PriceRecord) :
  classify_deal p =
    if at_or_below (current_price p) (store_low p) then DEAL_TAGS store_low_tag
    else if at_or_below (current_price p) (historical_low p) then DEAL_TAGS historical_low_tag
    else if at_or_below (current_price p) (one_year_low p) then DEAL_TAGS matching_lowest_tag
    else DEAL_TAGS on_sale_tag.
Proof. reflexivity. Qed.

Lemma not_meets (current : Q) (baseline : option Q) :
  ~ meets current baseline -> at_or_below current baseline = false.
Proof.
  intros H. destruct (at_or_below current baseline) eqn:E; [|reflexivity].
  exfalso. apply H, at_or_below_meets, E.
Qed.

Lemma DEAL_TAGS_inj (k k' : TagKey) : DEAL_TAGS k = DEAL_TAGS k' -> k = k'.
Proof.
  destruct k, k'; intros H; try reflexivity; discriminate H.
Qed.

Lemma tier_cases (p : PriceRecord) :
  tier p =
    if at_or_below (current_price p) (store_low p) then 0%Z
    else if at_or_below (current_price p) (historical_low p) then 1%Z
    else if at_or_below (current_price p) (one_year_low p) then 2%Z
    else 3%Z.
Proof.
  unfold tier. rewrite classify_deal_cases.
  destruct (at_or_below (current_price p) (store_low p));
  destruct (at_or_below (current_price p) (historical_low p));
  destruct (at_or_below (current_price p) (one_year_low p)); reflexivity.
Qed.

Lemma classify_deal_tag (p : PriceRecord) : exists k, classify_deal p = DEAL_TAGS k.
Proof.
  rewrite classify_deal_cases.
  destruct (at_or_below (current_price p) (store_low p));
  destruct (at_or_below (current_price p) (historical_low p));
  destruct (at_or_below (current_price p) (one_year_low p)); eexists; reflexivity.
Qed.

(** C2. The classifier tries the tiers in order and the first that holds
    wins: store low (rank 0), then cross-store historical low (rank 1),
    then one-year low (rank 2), then the default "on sale" (rank 3).  A
    record meeting both the store-low and the historical-low condition gets
    rank 0. *)
Theorem C2_classifier_precedence (p : PriceRecord) :
  (store_low_cond p ->
     classify_deal p = DEAL_TAGS store_low_tag /\ tier p = 0%Z) /\
  (~ store_low_cond p -> historical_low_cond p ->
     classify_deal p = DEAL_TAGS historical_low_tag /\ tier p = 1%Z) /\
  (~ store_low_cond p -> ~ historical_low_cond p -> one_year_low_cond p ->
     classify_deal p = DEAL_TAGS matching_lowest_tag /\ tier p = 2%Z) /\
  (~ store_low_cond p -> ~ historical_low_cond p -> ~ one_year_low_cond p ->
     classify_deal p = DEAL_TAGS on_sale_tag /\ tier p = 3%Z) /\
  (store_low_cond p -> historical_low_cond p -> tier p = 0%Z).
Proof.
  unfold store_low_cond, historical_low_cond, one_year_low_cond, tier.
  rewrite classify_deal_cases.
  repeat split; intros;
    repeat match goal with
           | H : meets _ _ |- _ => apply at_or_below_meets in H; rewrite H
           | H : ~ meets _ _ |- _ => apply not_meets in H; rewrite H
           end; reflexivity.
Qed.

Lemma C2_classifier_precedence_witness :
  store_low_cond Sample.both_lows /\ historical_low_cond Sample.both_lows /\
  tier Sample.both_lows = 0%Z.
Proof.
  assert (Hs : store_low_cond Sample.both_lows).
  { exists 5%Q. split; [reflexivity | apply Qle_refl]. }
  assert (Hh : historical_low_cond Sample.both_lows).
  { exists 6%Q. split; [reflexivity | apply Qle_bool_iff; reflexivity]. }
  split; [exact Hs | split; [exact Hh |]].
  destruct (C2_classifier_precedence Sample.both_lows) as (_ & _ & _ & _ & H).
  exact (H Hs Hh).
Defined.

(** C6. The classifier returns exactly one tier for every record, with a
    rank from 0 to 3; ranks 0, 1 and 2 are only given when the store low,
    the historical low and the one-year low, respectively, is present and
    not below the current price; an absent baseline never meets its tier's
    condition. *)
Theorem C6_classifier_total (p : PriceRecord) :
  (exists k, classify_deal p = DEAL_TAGS k /\
             forall k', classify_deal p = DEAL_TAGS k' -> k' = k) /\
  (0 <= tier p <= 3)%Z /\
  (tier p = 0%Z -> store_low_cond p) /\
  (tier p = 1%Z -> historical_low_cond p) /\
  (tier p = 2%Z -> one_year_low_cond p) /\
  (store_low p = None -> ~ store_low_cond p /\ tier p <> 0%Z) /\
  (historical_low p = None -> ~ historical_low_cond p /\ tier p <> 1%Z) /\
  (one_year_low p = None -> ~ one_year_low_cond p /\ tier p <> 2%Z).
Proof.
  split.
  { destruct (classify_deal_tag p) as [k Hk]. exists k. split; [exact Hk|].
    intros k' Hk'. apply DEAL_TAGS_inj. congruence. }
  pose proof (tier_cases p) as Ht.
  assert (N : forall b, b = None -> at_or_below (current_price p) b = false)
    by (intros b ->; reflexivity).
  pose proof (N (store_low p)) as N0.
  pose proof (N (historical_low p)) as N1.
  pose proof (N (one_year_low p)) as N2.
  unfold store_low_cond, historical_low_cond, one_year_low_cond.
  repeat rewrite <- at_or_below_meets.
  destruct (at_or_below (current_price p) (store_low p));
  destruct (at_or_below (current_price p) (historical_low p));
  destruct (at_or_below (current_price p) (one_year_low p));
  rewrite Ht; intuition (lia || congruence).
Qed.

Lemma C6_classifier_total_witness :
  store_low Sample.both_lows = Some 5%Q /\ tier Sample.both_lows = 0%Z /\
  store_low_cond Sample.both_lows.
Proof.
  split; [reflexivity | split; [reflexivity|]].
  destruct (C6_classifier_total Sample.both_lows) as (_ & _ & H & _).
  apply H. reflexivity.
Defined.

(* ------------------------------------------------------------------ *)
(** * The ranker *)

Lemma sort_results_deal (results : list DealResult) :
  sort_results results "deal" = sorted pair_ltb deal_key false results.
Proof. reflexivity. Qed.

Lemma sort_results_price (results : list DealResult) :
  sort_results results "price" = sorted Qltb price_key false results.
Proof. reflexivity. Qed.

Lemma sort_results_discount (results : list DealResult) :
  sort_results results "discount" = sorted Z.ltb discount_key true results.
Proof. reflexivity. Qed.

Lemma known_before_unknown (unknown known : string) :
  ~ defined_tier unknown -> defined_tier known -> (tag_rank known < tag_rank unknown)%Z.
Proof.
  intros Hu Hk. rewrite (undefined_rank unknown Hu).
  pose proof (defined_rank known Hk). lia.
Qed.

(** C4. Under the "deal" strategy the ranker returns the same rows, sorted
    ascending on the pair (severity rank, current price): ranks never
    decrease along the output and, within one rank, prices never decrease.
    A label outside the tag table has a rank above every rank of the
    table, so its rows come after all rows of the defined tiers. *)
Theorem C4_deal_strategy_order (results : list DealResult) :
  Permutation results (sort_results results "deal") /\
  StronglySorted deal_le (sort_results results "deal") /\
  (forall k, StronglySorted price_le (filter (same_rank k) (sort_results results "deal"))) /\
  (forall unknown known,
     ~ defined_tier unknown -> defined_tier known ->
     (tag_rank known < tag_rank unknown)%Z) /\
  (forall pre a post,
     sort_results results "deal" = (pre ++ a :: post)%list ->
     ~ defined_tier (fst (r_deal_tag a)) ->
     forall b, In b post -> ~ defined_tier (fst (r_deal_tag b))).
Proof.
  rewrite sort_results_deal.
  pose proof (deal_sort_sorted results) as Hs.
  split; [apply sorted_perm|].
  split; [exact Hs|].
  split.
  { intros k. apply StronglySorted_filter_weaken with (R := deal_le); [|exact Hs].
    unfold same_rank, deal_le, price_le. intros a b Ha Hb [Hlt|[_ Hp]].
    - apply Z.eqb_eq in Ha, Hb. lia.
    - exact Hp. }
  split; [apply known_before_unknown|].
  intros pre a post E Ha b Hb Hdef.
  rewrite E in Hs. apply StronglySorted_split in Hs.
  rewrite Forall_forall in Hs. specialize (Hs b Hb).
  pose proof (known_before_unknown _ _ Ha Hdef) as Hlt.
  unfold deal_le, rank in Hs. lia.
Qed.

Lemma C4_deal_strategy_order_witness :
  map r_name (sort_results Sample.rows "deal") = ["Y"; "X"; "Z"; "M"] /\
  StronglySorted deal_le (sort_results Sample.rows "deal") /\
  (tag_rank "🏷️  On Sale" < tag_rank "mystery")%Z.
Proof.
  destruct (C4_deal_strategy_order Sample.rows) as (_ & Hs & _ & Hr & _).
  split; [reflexivity | split; [exact Hs|]].
  apply Hr.
  - intros [n H]. discriminate H.
  - exists 3%Z. reflexivity.
Defined.

(** C8. Under the "price" and the "discount" strategy the sort is stable:
    for every key value, the rows having that current price (respectively
    that discount) form the same sequence in the output as in the input. *)
Theorem C8_price_discount_stable (results : list DealResult) :
  (forall k : Q,
     filter (same_price k) (sort_results results "price") = filter (same_price k) results) /\
  (forall k : Z,
     filter (same_discount k) (sort_results results "discount")
     = filter (same_discount k) results).
Proof.
  split; intros k.
  - rewrite sort_results_price. apply sorted_filter.
    unfold same_price, price_key. intros x y Hx Hy.
    apply Qeq_bool_eq in Hx, Hy. apply Qltb_false.
    rewrite Hx, Hy. apply Qle_refl.
  - rewrite sort_results_discount. apply sorted_filter.
    unfold same_discount, discount_key. intros x y Hx Hy.
    apply Z.eqb_eq in Hx, Hy. apply Z.ltb_ge. lia.
Qed.

Example sort_price_sample :
  map r_name (sort_results Sample.rows "price") = ["M"; "X"; "Z"; "Y"].
Proof. reflexivity. Qed.

Example sort_discount_sample :
  map r_name (sort_results Sample.rows "discount") = ["Y"; "Z"; "X"; "M"].
Proof. reflexivity. Qed.

(* ------------------------------------------------------------------ *)
(** * Dicts and [min] *)

Lemma dict_get_set_same {V : Type} (k : string) (v : V) (d : dict V) :
  dict_get k (dict_set k v d) = Some v.
Proof.
  induction d as [|[k' v'] d IH]; simpl.
  - rewrite String.eqb_refl. reflexivity.
  - destruct (String.eqb k' k) eqn:E; simpl.
    + rewrite String.eqb_refl. reflexivity.
    + rewrite E. exact IH.
Qed.

Lemma dict_get_set_other {V : Type} (k k' : string) (v : V) (d : dict V) :
  k <> k' -> dict_get k' (dict_set k v d) = dict_get k' d.
Proof.
  intros N. induction d as [|[k0 v0] d IH]; simpl.
  - destruct (String.eqb_spec k k'); [contradiction | reflexivity].
  - destruct (String.eqb_spec k0 k) as [->|N0]; simpl.
    + destruct (String.eqb_spec k k'); [contradiction | reflexivity].
    + destruct (String.eqb_spec k0 k'); [reflexivity | exact IH].
Qed.

Lemma dict_get_keys {V : Type} (k : string) (d : dict V) :
  In k (keys d) <-> dict_get k d <> None.
Proof.
  unfold keys. induction d as [|[k' v] d IH]; simpl.
  - split; [contradiction | congruence].
  - destruct (String.eqb_spec k' k) as [->|N].
    + split; [discriminate | auto].
    + rewrite <- IH. split; [intros [E|H]; [contradiction | exact H] | auto].
Qed.

Section MinBy.
Context {A : Type}.
Variable key : A -> Q.

(** The running minimum, with the elements seen so far split around it. *)
Lemma fold_min_split (xs pre : list A) (best : A) (post : list A) :
  (forall d, In d pre -> (key best < key d)%Q) ->
  (forall d, In d post -> (key best <= key d)%Q) ->
  exists pre' post',
    (pre ++ best :: post ++ xs)%list
      = (pre' ++ fold_left (min_step key) xs best :: post')%list /\
    (forall d, In d pre' -> (key (fold_left (min_step key) xs best) < key d)%Q) /\
    (forall d, In d post' -> (key (fold_left (min_step key) xs best) <= key d)%Q).
Proof.
  revert pre best post. induction xs as [|x xs IH]; intros pre best post Hpre Hpost.
  - exists pre, post. simpl. rewrite app_nil_r. auto.
  - simpl. unfold min_step at 2 4 6. destruct (Qltb (key x) (key best)) eqn:E.
    + apply Qltb_true in E.
      destruct (IH (pre ++ best :: post)%list x []) as (pre' & post' & Heq & H1 & H2).
      * intros d Hd. apply in_app_or in Hd. destruct Hd as [Hd|[<-|Hd]].
        -- apply Qlt_trans with (key best); auto.
        -- exact E.
        -- apply Qlt_le_trans with (key best); auto.
      * intros d [].
      * exists pre', post'. split; [|auto].
        rewrite <- Heq. simpl. rewrite <- app_assoc. reflexivity.
    + apply Qltb_false in E.
      destruct (IH pre best (post ++ [x])%list) as (pre' & post' & Heq & H1 & H2).
      * exact Hpre.
      * intros d Hd. apply in_app_or in Hd. destruct Hd as [Hd|[<-|[]]]; auto.
      * exists pre', post'. split; [|auto].
        rewrite <- Heq. rewrite <- app_assoc. reflexivity.
Qed.

Lemma min_by_first_lowest (l : list A) :
  l <> [] ->
  exists pre best post,
    min_by key l = Some best /\ l = (pre ++ best :: post)%list /\
    (forall d, In d pre -> (key best < key d)%Q) /\
    (forall d, In d post -> (key best <= key d)%Q).
Proof.
  destruct l as [|x xs]; [congruence|]. intros _.
  destruct (fold_min_split xs [] x []) as (pre & post & Heq & H1 & H2).
  - intros d [].
  - intros d [].
  - exists pre, (fold_left (min_step key) xs x), post. simpl in *. auto.
Qed.

Lemma min_by_None (l : list A) : min_by key l = None <-> l = [].
Proof.
  destruct l; simpl; split; congruence.
Qed.

Lemma min_by_In (l : list A) (best : A) : min_by key l = Some best -> In best l.
Proof.
  intros H. destruct l as [|x xs]; [discriminate|].
  destruct (min_by_first_lowest (x :: xs)) as (pre & b & post & Hb & Heq & _); [discriminate|].
  rewrite H in Hb. injection Hb as <-. rewrite Heq. apply in_elt.
Qed.
End MinBy.

(* ------------------------------------------------------------------ *)
(** * The price aggregator *)

Lemma price_step_other (prices : dict PriceRecord) (item : Item) (k : string) :
  (deals item <> [] -> item_id item <> k) ->
  dict_get k (price_step prices item) = dict_get k prices.
Proof.
  unfold price_step. intros H.
  destruct (min_by deal_amount (deals item)) as [best|] eqn:E; [|reflexivity].
  apply dict_get_set_other, H. intros Hd.
  apply (min_by_None deal_amount) in Hd. congruence.
Qed.

Lemma fold_price_step_other (items : list Item) (prices : dict PriceRecord) (k : string) :
  (forall item, In item items -> deals item <> [] -> item_id item <> k) ->
  dict_get k (fold_left price_step items prices) = dict_get k prices.
Proof.
  revert prices. induction items as [|item items IH]; intros prices H; simpl.
  - reflexivity.
  - rewrite IH.
    + apply price_step_other. apply H. left. reflexivity.
    + intros item' Hin. apply H. right. exact Hin.
Qed.

(** Every record of the result was built from an item of the response and
    the best of its deals, unless it was there before the loop. *)
Lemma fold_price_step_origin (items : list Item) (prices : dict PriceRecord)
      (k : string) (rec : PriceRecord) :
  dict_get k (fold_left price_step items prices) = Some rec ->
  dict_get k prices = Some rec \/
  exists item best,
    In item items /\ item_id item = k /\
    min_by deal_amount (deals item) = Some best /\ rec = price_record item best.
Proof.
  revert prices. induction items as [|item items IH]; intros prices H; simpl in H.
  - left. exact H.
  - destruct (IH _ H) as [H0|(item' & best & Hin & Hid & Hmin & Hrec)].
    + unfold price_step in H0.
      destruct (min_by deal_amount (deals item)) as [best|] eqn:E.
      * destruct (String.eqb_spec (item_id item) k) as [Ek|Nk].
        -- right. exists item, best. rewrite Ek, dict_get_set_same in H0.
           injection H0 as <-. simpl. auto.
        -- left. rewrite dict_get_set_other in H0 by exact Nk. exact H0.
      * left. exact H0.
    + right. exists item', best. simpl. auto.
Qed.

Lemma collect_prices_at (pre : list Item) (item : Item) (post : list Item) (best : Deal) :
  min_by deal_amount (deals item) = Some best ->
  (forall item', In item' post -> deals item' <> [] -> item_id item' <> item_id item) ->
  dict_get (item_id item) (collect_prices (pre ++ item :: post))
  = Some (price_record item best).
Proof.
  intros Hmin Hpost. unfold collect_prices. rewrite fold_left_app. simpl.
  rewrite fold_price_step_other by exact Hpost.
  unfold price_step at 1. rewrite Hmin. apply dict_get_set_same.
Qed.

Lemma collect_prices_keys (items : list Item) (k : string) :
  In k (keys (collect_prices items)) <->
  exists item, In item items /\ item_id item = k /\ deals item <> [].
Proof.
  rewrite dict_get_keys. split.
  - intros H. destruct (dict_get k (collect_prices items)) as [rec|] eqn:E; [|congruence].
    apply fold_price_step_origin in E.
    destruct E as [E|(item & best & Hin & Hid & Hmin & _)]; [discriminate|].
    exists item. split; [exact Hin | split; [exact Hid|]].
    intros Hd. apply (min_by_None deal_amount) in Hd. congruence.
  - intros (item & Hin & Hid & Hd).
    (* the last item of that id with deals decides the entry *)
    revert item Hin Hid Hd. unfold collect_prices.
    generalize (@nil (string * PriceRecord)).
    induction items as [|x items IH]; intros acc item Hin Hid Hd; [destruct Hin|].
    simpl. destruct Hin as [->|Hin].
    + assert (Hx : dict_get k (price_step acc item) <> None).
      { unfold price_step.
        destruct (min_by deal_amount (deals item)) eqn:E.
        - rewrite Hid, dict_get_set_same. discriminate.
        - apply (min_by_None deal_amount) in E. contradiction. }
      clear IH. revert Hx. generalize (price_step acc item).
      induction items as [|y items IH]; intros acc' Hx; [exact Hx|].
      simpl. apply IH. unfold price_step.
      destruct (min_by deal_amount (deals y)); [|exact Hx].
      destruct (String.eqb_spec (item_id y) k) as [->|N].
      * rewrite dict_get_set_same. discriminate.
      * rewrite dict_get_set_other by exact N. exact Hx.
    + apply (IH _ item Hin Hid Hd).
Qed.

Lemma itad_get_prices_ok (cfg : Config) (svc : Services) (itad_ids : list string)
      (country : string) :
  status_code (prices_response cfg svc itad_ids country) = 200%Z ->
  itad_get_prices cfg svc itad_ids country
  = ([Requested (PostPrices (ITAD_API_KEY cfg) (upper country) ITAD_STEAM_SHOP_ID itad_ids)],
     Ret (collect_prices (json (prices_response cfg svc itad_ids country)))).
Proof.
  unfold prices_response, itad_get_prices. intros H. cbv zeta. rewrite H. reflexivity.
Qed.

(** C5. For an item of the prices response with at least one deal, the
    aggregator selects a deal of the lowest current price, and among several
    of that price the first in response order: every deal before the
    selected one is strictly dearer, every deal after it is not cheaper.
    The loop writes the record built from that deal under the item's id,
    and the returned mapping holds it there unless a later item with deals
    repeats the id. *)
Theorem C5_lowest_offer_first_on_ties
        (cfg : Config) (svc : Services) (itad_ids : list string) (country : string)
        (pre : list Item) (item : Item) (post : list Item) :
  status_code (prices_response cfg svc itad_ids country) = 200%Z ->
  json (prices_response cfg svc itad_ids country) = (pre ++ item :: post)%list ->
  deals item <> [] ->
  exists dpre best dpost prices,
    deals item = (dpre ++ best :: dpost)%list /\
    (forall d, In d dpre -> (price_amount best < price_amount d)%Q) /\
    (forall d, In d dpost -> (price_amount best <= price_amount d)%Q) /\
    (forall acc, price_step acc item
                 = dict_set (item_id item) (price_record item best) acc) /\
    current_price (price_record item best) = price_amount best /\
    result (itad_get_prices cfg svc itad_ids country) = Ret prices /\
    ((forall item', In item' post -> deals item' <> [] -> item_id item' <> item_id item) ->
     dict_get (item_id item) prices = Some (price_record item best)).
Proof.
  intros Hst Hjs Hd.
  destruct (min_by_first_lowest deal_amount (deals item) Hd)
    as (dpre & best & dpost & Hmin & Heq & Hlt & Hle).
  exists dpre, best, dpost, (collect_prices (pre ++ item :: post)).
  split; [exact Heq|]. split; [exact Hlt|]. split; [exact Hle|].
  split; [intros acc; unfold price_step; rewrite Hmin; reflexivity|].
  split; [reflexivity|].
  split.
  - rewrite itad_get_prices_ok by exact Hst. rewrite Hjs. reflexivity.
  - intros Hpost. apply collect_prices_at; assumption.
Qed.

Lemma C5_lowest_offer_first_on_ties_witness :
  exists dpre best dpost prices,
    deals Sample.item_u1 = (dpre ++ best :: dpost)%list /\
    (forall d, In d dpre -> (price_amount best < price_amount d)%Q) /\
    (forall d, In d dpost -> (price_amount best <= price_amount d)%Q) /\
    (forall acc, price_step acc Sample.item_u1
                 = dict_set "u1" (price_record Sample.item_u1 best) acc) /\
    current_price (price_record Sample.item_u1 best) = price_amount best /\
    result (itad_get_prices Sample.cfg Sample.svc_prices ["u1"] "br") = Ret prices /\
    dict_get "u1" prices = Some (price_record Sample.item_u1 best).
Proof.
  destruct (C5_lowest_offer_first_on_ties Sample.cfg Sample.svc_prices ["u1"] "br"
              [] Sample.item_u1 [Sample.item_u2])
    as (dpre & best & dpost & prices & H1 & H2 & H3 & H4 & H5 & H6 & H7).
  - reflexivity.
  - reflexivity.
  - discriminate.
  - exists dpre, best, dpost, prices. repeat (split; [assumption|]).
    apply H7. intros item' [<-|[]] H. exfalso. apply H. reflexivity.
Defined.

Example best_of_tie_is_first :
  min_by deal_amount (deals Sample.item_u1) = Some (Sample.deal 5 None None (Some 4%Q)).
Proof. reflexivity. Qed.

(** C7. The aggregator's mapping has an entry exactly for the ids of the
    items that have at least one deal: every record comes from an item of
    the response and one of its deals, and an id all of whose deals lists
    are empty has no entry at all. *)
Theorem C7_no_offer_no_record
        (cfg : Config) (svc : Services) (itad_ids : list string) (country : string) :
  status_code (prices_response cfg svc itad_ids country) = 200%Z ->
  exists prices,
    result (itad_get_prices cfg svc itad_ids country) = Ret prices /\
    (forall k, In k (keys prices) <->
               exists item, In item (json (prices_response cfg svc itad_ids country)) /\
                            item_id item = k /\ deals item <> []) /\
    (forall k rec, dict_get k prices = Some rec ->
                   exists item best,
                     In item (json (prices_response cfg svc itad_ids country)) /\
                     item_id item = k /\ In best (deals item) /\
                     rec = price_record item best) /\
    (forall item,
        In item (json (prices_response cfg svc itad_ids country)) ->
        deals item = [] ->
        (forall item', In item' (json (prices_response cfg svc itad_ids country)) ->
                       item_id item' = item_id item -> deals item' = []) ->
        ~ In (item_id item) (keys prices) /\ dict_get (item_id item) prices = None).
Proof.
  intros Hst.
  exists (collect_prices (json (prices_response cfg svc itad_ids country))).
  split; [rewrite itad_get_prices_ok by exact Hst; reflexivity|].
  split; [intros k; apply collect_prices_keys|].
  split.
  - intros k rec H. apply fold_price_step_origin in H.
    destruct H as [H|(item & best & Hin & Hid & Hmin & Hrec)]; [discriminate|].
    exists item, best. split; [exact Hin|]. split; [exact Hid|].
    split; [|exact Hrec]. apply (min_by_In deal_amount), Hmin.
  - intros item Hin Hd Hall.
    assert (Hk : ~ In (item_id item)
                    (keys (collect_prices (json (prices_response cfg svc itad_ids country))))).
    { rewrite collect_prices_keys. intros (item' & Hin' & Hid & Hne).
      apply Hne, Hall; assumption. }
    split; [exact Hk|].
    rewrite dict_get_keys in Hk.
    destruct (dict_get (item_id item) _); [exfalso; apply Hk; discriminate | reflexivity].
Qed.

Lemma C7_no_offer_no_record_witness :
  exists prices,
    result (itad_get_prices Sample.cfg Sample.svc_prices ["u1"; "u2"] "br") = Ret prices /\
    keys prices = ["u1"] /\ dict_get "u2" prices = None.
Proof.
  destruct (C7_no_offer_no_record Sample.cfg Sample.svc_prices ["u1"; "u2"] "br")
    as (prices & Hres & _ & _ & Hno).
  - reflexivity.
  - exists prices. split; [exact Hres|]. split.
    + injection Hres as <-. reflexivity.
    + apply (Hno Sample.item_u2).
      * right. left. reflexivity.
      * reflexivity.
      * intros item' [<-|[<-|[]]] H; [discriminate H | reflexivity].
Defined.

(** C9. When the selected deal has no "cut" field, the record's
    discount_percent is 0, and when it has no "url" field, the record's
    url is the empty string; a field that is there is copied.  Every record
    of the aggregator's mapping is built this way. *)
Theorem C9_missing_cut_and_url_defaults
        (cfg : Config) (svc : Services) (itad_ids : list string) (country : string) :
  status_code (prices_response cfg svc itad_ids country) = 200%Z ->
  exists prices,
    result (itad_get_prices cfg svc itad_ids country) = Ret prices /\
    forall k rec,
      dict_get k prices = Some rec ->
      exists item best,
        In item (json (prices_response cfg svc itad_ids country)) /\
        item_id item = k /\
        min_by deal_amount (deals item) = Some best /\
        (cut best = None -> discount_percent rec = 0%Z) /\
        (forall c, cut best = Some c -> discount_percent rec = c) /\
        (deal_url best = None -> url rec = "") /\
        (forall u, deal_url best = Some u -> url rec = u).
Proof.
  intros Hst.
  exists (collect_prices (json (prices_response cfg svc itad_ids country))).
  split; [rewrite itad_get_prices_ok by exact Hst; reflexivity|].
  intros k rec H. apply fold_price_step_origin in H.
  destruct H as [H|(item & best & Hin & Hid & Hmin & ->)]; [discriminate|].
  exists item, best. simpl.
  repeat split; try assumption; intros; 
    match goal with H : _ = _ |- _ => rewrite H; reflexivity end.
Qed.

Lemma C9_missing_cut_and_url_defaults_witness :
  exists prices,
    result (itad_get_prices Sample.cfg Sample.svc_prices ["u1"] "br") = Ret prices /\
    option_map discount_percent (dict_get "u1" prices) = Some 0%Z /\
    option_map url (dict_get "u1" prices) = Some "".
Proof.
  destruct (C9_missing_cut_and_url_defaults Sample.cfg Sample.svc_prices ["u1"] "br")
    as (prices & Hres & _).
  - reflexivity.
  - exists prices. split; [exact Hres|]. injection Hres as <-. split; reflexivity.
Defined.

(* ------------------------------------------------------------------ *)
(** * Traces *)

Lemma bind_run {A B : Type} (m : M A) (f : A -> M B) (t : list Event) (a : A) :
  m = (t, Ret a) -> bind m f = ((t ++ trace (f a))%list, result (f a)).
Proof.
  intros ->. unfold bind, trace, result. destruct (f a). reflexivity.
Qed.

Lemma last_printed_end (t : list Event) (s : string) :
  last_printed (t ++ [Printed s]) = Some s.
Proof.
  unfold last_printed. rewrite fold_left_app. reflexivity.
Qed.

Lemma quiet_filter (t : list Event) :
  Forall quiet t -> filter is_prices_request t = [] /\ filter is_rendered t = [].
Proof.
  induction 1 as [|e t [H1 H2] _ [IH1 IH2]]; simpl.
  - auto.
  - rewrite H1, H2. auto.
Qed.

Lemma quiet_printed (s : string) : quiet (Printed s).
Proof. split; reflexivity. Qed.

Lemma resolve_names_quiet (svc : Services) (app_ids : list string) (games : dict string) :
  Forall quiet (trace (resolve_names svc app_ids games)).
Proof.
  revert games. induction app_ids as [|app_id rest IH]; intros games.
  - constructor.
  - simpl. specialize (IH (dict_set app_id (app_name app_id (steam_appdetails svc app_id)) games)).
    destruct (resolve_names svc rest _) as [t r]. simpl in *.
    constructor; [split; reflexivity | exact IH].
Qed.

Lemma fetch_steam_wishlist_quiet (cfg : Config) (svc : Services) (steam_id : string) :
  Forall quiet (trace (fetch_steam_wishlist cfg svc steam_id)).
Proof.
  unfold fetch_steam_wishlist. simpl.
  destruct (negb (Z.eqb (status_code (steam_wishlist svc (STEAM_API_KEY cfg) steam_id)) 200)).
  - simpl. repeat (constructor; try (split; reflexivity)).
  - destruct (json (steam_wishlist svc (STEAM_API_KEY cfg) steam_id)) as [|i items] eqn:E.
    + simpl. repeat (constructor; try (split; reflexivity)).
    + match goal with
      | |- context [resolve_names svc ?ids ?g] =>
          pose proof (resolve_names_quiet svc ids g) as Hq;
          destruct (resolve_names svc ids g) as [t r]
      end.
      simpl in *. repeat (constructor; try (split; reflexivity)). exact Hq.
Qed.

Lemma itad_lookup_ids_trace (cfg : Config) (svc : Services) (app_ids : list string) :
  requests (trace (itad_lookup_ids cfg svc app_ids))
  = [Requested (PostLookup (ITAD_API_KEY cfg) ITAD_STEAM_SHOP_ID
                           (map (fun app_id => "app/" ++ app_id) app_ids))]
  /\ Forall quiet (trace (itad_lookup_ids cfg svc app_ids)).
Proof.
  unfold itad_lookup_ids. cbv zeta.
  destruct (negb (Z.eqb (status_code (itad_lookup svc (ITAD_API_KEY cfg) _ _)) 200)); simpl;
    (split; [reflexivity | repeat (constructor; try (split; reflexivity))]).
Qed.

Lemma itad_lookup_ids_ok (cfg : Config) (svc : Services) (app_ids : list string) :
  status_code (lookup_response cfg svc app_ids) = 200%Z ->
  result (itad_lookup_ids cfg svc app_ids)
  = Ret (collect_ids (json (lookup_response cfg svc app_ids))).
Proof.
  unfold lookup_response, itad_lookup_ids. intros H. cbv zeta. rewrite H. reflexivity.
Qed.

Lemma id_step_falsy (id_map : dict string) (entry : string * option string) :
  truthy (snd entry) = false -> id_step id_map entry = id_map.
Proof.
  destruct entry as [shop_id [uuid|]]; simpl; intros H.
  - unfold id_step. rewrite H. reflexivity.
  - reflexivity.
Qed.

Lemma collect_ids_falsy (data : dict (option string)) :
  (forall entry, In entry data -> truthy (snd entry) = false) -> collect_ids data = [].
Proof.
  unfold collect_ids. generalize (@nil (string * string)).
  induction data as [|entry data IH]; intros acc H; simpl.
  - reflexivity.
  - rewrite id_step_falsy by (apply H; left; reflexivity).
    apply IH. intros e He. apply H. right. exact He.
Qed.

(* ------------------------------------------------------------------ *)
(** * The identity resolver on an empty input *)

(** C3, as the code has it.  On an empty input the resolver still makes
    its one batch request, with an empty body; it returns an empty mapping
    when the service answers with success and no entry holding a non-null,
    non-empty id. *)
Theorem C3_empty_input_one_request (cfg : Config) (svc : Services) :
  requests (trace (itad_lookup_ids cfg svc []))
  = [Requested (PostLookup (ITAD_API_KEY cfg) ITAD_STEAM_SHOP_ID [])] /\
  (status_code (lookup_response cfg svc []) = 200%Z ->
   (forall entry, In entry (json (lookup_response cfg svc [])) -> truthy (snd entry) = false) ->
   result (itad_lookup_ids cfg svc []) = Ret []).
Proof.
  split.
  - apply (itad_lookup_ids_trace cfg svc []).
  - intros Hst Hfalsy. rewrite itad_lookup_ids_ok by exact Hst.
    rewrite collect_ids_falsy by exact Hfalsy. reflexivity.
Qed.

Lemma C3_empty_input_one_request_witness :
  requests (trace (itad_lookup_ids Sample.cfg Sample.svc_empty []))
  = [Requested (PostLookup (Some "itad-key") 61 [])] /\
  result (itad_lookup_ids Sample.cfg Sample.svc_empty []) = Ret [].
Proof.
  destruct (C3_empty_input_one_request Sample.cfg Sample.svc_empty) as [Hreq Hres].
  split; [exact Hreq|]. apply Hres.
  - reflexivity.
  - intros entry [].
Defined.

(** The claim as stated fails: on the empty input the mapping is empty, yet
    a batch request was made. *)
Lemma C3_counterexample :
  ~ (result (itad_lookup_ids Sample.cfg Sample.svc_empty []) = Ret [] /\
     requests (trace (itad_lookup_ids Sample.cfg Sample.svc_empty [])) = []).
Proof.
  intros [_ H]. discriminate H.
Qed.

(* ------------------------------------------------------------------ *)
(** * The run that resolves nothing *)

(** C1, as the code has it.  When identity resolution yields no mapping,
    the run ends early, before any request to the price service and
    without rendering any result; it prints "No games resolved via ITAD.
    Check your API key." in red and exits with status 1. *)
Theorem C1_zero_mappings_exit_status_1
        (cfg : Config) (svc : Services) (args_sort : string) :
  resolves_nothing cfg svc ->
  exit_status (main cfg svc args_sort) = 1%Z /\
  last_printed (trace (main cfg svc args_sort))
  = Some "[red]No games resolved via ITAD. Check your API key.[/red]" /\
  filter is_prices_request (trace (main cfg svc args_sort)) = [] /\
  filter is_rendered (trace (main cfg svc args_sort)) = [].
Proof.
  intros (H1 & H2 & H3 & steam_id & wishlist & Hid & Hfetch & Hne & Hlook).
  pose proof (fetch_steam_wishlist_quiet cfg svc steam_id) as Q1.
  pose proof (itad_lookup_ids_trace cfg svc (keys wishlist)) as [_ Q2].
  destruct wishlist as [|w wishlist]; [congruence|].
  destruct (fetch_steam_wishlist cfg svc steam_id) as [t1 r1] eqn:Ef.
  destruct (itad_lookup_ids cfg svc (keys (w :: wishlist))) as [t2 r2] eqn:El.
  simpl in Hfetch, Hlook, Q1, Q2. subst r1 r2.
  assert (Hmain : main cfg svc args_sort
                  = ((t1 ++ [Printed "[cyan]Resolving ITAD game IDs...[/cyan]"] ++ t2
                      ++ [Printed "[red]No games resolved via ITAD. Check your API key.[/red]"])%list,
                     Exit 1%Z)).
  { unfold main. rewrite H1, H2, H3, Hid. cbn [negb]. cbv beta iota.
    rewrite (bind_run _ _ _ _ Ef). cbv beta iota.
    rewrite (bind_run _ _ _ _ (eq_refl : print _ = (_, Ret tt))).
    rewrite (bind_run _ _ _ _ El). reflexivity. }
  rewrite Hmain. unfold exit_status, result, trace. cbn [fst snd].
  split; [reflexivity|]. split.
  - rewrite !app_assoc. apply last_printed_end.
  - apply quiet_filter.
    repeat (apply Forall_app; split); try assumption;
      repeat constructor.
Qed.

Lemma sample_resolves_nothing : resolves_nothing Sample.cfg Sample.svc_unmapped.
Proof.
  repeat split.
  exists "76561198000000000", [("20", "Beta")].
  repeat split. discriminate.
Defined.

Lemma C1_zero_mappings_exit_status_1_witness :
  exit_status (main Sample.cfg Sample.svc_unmapped "deal") = 1%Z /\
  last_printed (trace (main Sample.cfg Sample.svc_unmapped "deal"))
  = Some "[red]No games resolved via ITAD. Check your API key.[/red]" /\
  filter is_prices_request (trace (main Sample.cfg Sample.svc_unmapped "deal")) = [] /\
  filter is_rendered (trace (main Sample.cfg Sample.svc_unmapped "deal")) = [].
Proof.
  apply (C1_zero_mappings_exit_status_1 Sample.cfg Sample.svc_unmapped "deal").
  exact sample_resolves_nothing.
Defined.

(** The claim as stated fails: a run that resolves nothing does not end
    with the success status. *)
Lemma C1_counterexample :
  ~ (resolves_nothing Sample.cfg Sample.svc_unmapped ->
     exit_status (main Sample.cfg Sample.svc_unmapped "deal") = 0%Z).
Proof.
  intros H. specialize (H sample_resolves_nothing). discriminate H.
Qed.

Example main_unmapped_trace :
  trace (main Sample.cfg Sample.svc_unmapped "deal")
  = [ Printed "[cyan]Fetching Steam wishlist for ID:[/cyan] 76561198000000000";
      Requested (GetWishlist (Some "steam-key") "76561198000000000");
      Printed "[green]Found 1 games in wishlist.[/green]";
      Printed "[cyan]Resolving game names...[/cyan]";
      Requested (GetAppDetails "20");
      Printed "[cyan]Resolving ITAD game IDs...[/cyan]";
      Requested (PostLookup (Some "itad-key") 61 ["app/20"]);
      Printed "[red]No games resolved via ITAD. Check your API key.[/red]" ].
Proof. reflexivity. Qed.

(* ------------------------------------------------------------------ *)
(** * The games table *)

Lemma filter_all {A : Type} (p : A -> bool) (l : list A) :
  (forall x, In x l -> p x = true) -> filter p l = l.
Proof.
  induction l as [|x l IH]; intros H; simpl.
  - reflexivity.
  - rewrite (H x) by (left; reflexivity). f_equal. apply IH.
    intros y Hy. apply H. right. exact Hy.
Qed.

Lemma filter_none {A : Type} (p : A -> bool) (l : list A) :
  (forall x, In x l -> p x = false) -> filter p l = [].
Proof.
  induction l as [|x l IH]; intros H; simpl.
  - reflexivity.
  - rewrite (H x) by (left; reflexivity). apply IH.
    intros y Hy. apply H. right. exact Hy.
Qed.

Lemma key_ok_filter (keep : Sync.Row -> bool) (t : Sync.Table) :
  Sync.primary_key_ok t -> Sync.primary_key_ok (filter keep t).
Proof.
  unfold Sync.primary_key_ok.
  induction t as [|r t IH]; simpl; intros H; [constructor|].
  apply NoDup_cons_iff in H as [Hfresh Hrest].
  destruct (keep r); simpl; [|apply IH, Hrest].
  apply NoDup_cons_iff. split; [|apply IH, Hrest].
  intros Hin. apply Hfresh.
  apply in_map_iff in Hin as (r' & Hkey & Hin).
  apply filter_In in Hin. apply in_map_iff. exists r'. tauto.
Qed.

Lemma untouched_after_delete (g : Sync.OwnedGame) (games : list Sync.OwnedGame)
      (t : Sync.Table) :
  filter (untouched games)
         (filter (fun r' => negb (Z.eqb (Sync.appid r') (Sync.g_appid g))) t)
  = filter (untouched (g :: games)) t.
Proof.
  induction t as [|r t IH]; simpl; [reflexivity|].
  destruct (Z.eqb (Sync.appid r) (Sync.g_appid g)); simpl; rewrite IH; reflexivity.
Qed.

Lemma insert_or_replace_key_ok (r : Sync.Row) (t : Sync.Table) :
  Sync.primary_key_ok t -> Sync.primary_key_ok (Sync.insert_or_replace r t).
Proof.
  unfold Sync.primary_key_ok, Sync.insert_or_replace. intros H.
  rewrite map_app. simpl.
  apply (Permutation_NoDup (Permutation_cons_append _ _)).
  constructor.
  - intros Hin. apply in_map_iff in Hin as (z & Hz & Hin).
    apply filter_In in Hin as [_ Hp].
    rewrite Hz, Z.eqb_refl in Hp. discriminate Hp.
  - apply (key_ok_filter _ t H).
Qed.

Section SyncFacts.
Variable home : string.
Variable path_exists : string -> bool.

Lemma upsert_all_key_ok (games : list Sync.OwnedGame) (t : Sync.Table) :
  Sync.primary_key_ok t -> Sync.primary_key_ok (Sync.upsert_all home path_exists games t).
Proof.
  unfold Sync.upsert_all. revert t.
  induction games as [|g games IH]; intros t H; simpl.
  - exact H.
  - apply IH, insert_or_replace_key_ok, H.
Qed.

(** The table after the loop: the rows no game touches, then the rows the
    loop writes on an empty table. *)
Lemma upsert_all_split (games : list Sync.OwnedGame) (t : Sync.Table) :
  Sync.upsert_all home path_exists games t
  = (filter (untouched games) t ++ Sync.upsert_all home path_exists games [])%list.
Proof.
  unfold Sync.upsert_all. revert t.
  induction games as [|g games IH]; intros t; simpl.
  - rewrite app_nil_r. symmetry. apply filter_all. reflexivity.
  - rewrite IH. rewrite (IH (Sync.insert_or_replace _ [])).
    unfold Sync.insert_or_replace. simpl.
    rewrite filter_app, <- app_assoc, <- untouched_after_delete. reflexivity.
Qed.

Lemma upsert_all_cons (g : Sync.OwnedGame) (games : list Sync.OwnedGame) (t : Sync.Table) :
  Sync.upsert_all home path_exists (g :: games) t
  = Sync.upsert_all home path_exists games
      (Sync.insert_or_replace (Sync.row_of home path_exists g) t).
Proof. reflexivity. Qed.

Lemma upsert_all_touched (games : list Sync.OwnedGame) (r : Sync.Row) :
  In r (Sync.upsert_all home path_exists games []) -> untouched games r = false.
Proof.
  induction games as [|g games IH].
  - intros [].
  - rewrite upsert_all_cons, upsert_all_split.
    intros Hin. apply in_app_or in Hin. destruct Hin as [Hin|Hin].
    + apply filter_In in Hin as [Hin _].
      unfold Sync.insert_or_replace in Hin. simpl in Hin.
      destruct Hin as [<-|[]]. simpl. rewrite Z.eqb_refl. reflexivity.
    + simpl. rewrite (IH Hin). apply andb_false_r.
Qed.

Lemma upsert_all_idempotent (games : list Sync.OwnedGame) (t : Sync.Table) :
  Sync.upsert_all home path_exists games (Sync.upsert_all home path_exists games t)
  = Sync.upsert_all home path_exists games t.
Proof.
  rewrite (upsert_all_split games (Sync.upsert_all home path_exists games t)).
  rewrite (upsert_all_split games t) at 1.
  rewrite filter_app.
  rewrite (filter_none _ (Sync.upsert_all home path_exists games [])).
  - rewrite app_nil_r. rewrite (upsert_all_split games t). f_equal.
    apply filter_all. intros r Hr. apply filter_In in Hr. apply Hr.
  - intros r. apply upsert_all_touched.
Qed.

End SyncFacts.

Section SyncRun.
Variable home : string.
Variable path_exists : string -> bool.

(** The loop as it runs gives the table of the plain loop, unless a
    statement cannot be bound. *)
Lemma execute_all_spec (games : list Sync.OwnedGame) (t : Sync.Table) :
  Sync.execute_all home path_exists games t
  = if all_bindable home path_exists games
    then Some (Sync.upsert_all home path_exists games t)
    else None.
Proof.
  unfold all_bindable. revert t. induction games as [|g games IH]; intros t; simpl.
  - reflexivity.
  - destruct (Sync.bindable (Sync.row_of home path_exists g)); simpl.
    + rewrite IH. reflexivity.
    + reflexivity.
Qed.

Lemma run_cases (key id : option string)
      (response : Response (option (list Sync.OwnedGame))) (db : Sync.Table) :
  Sync.run home path_exists key id response db
  = if negb (truthy key) || negb (truthy id) then Sync.ValueError
    else if (Z.leb 400 (status_code response) && Z.ltb (status_code response) 600)%bool
         then Sync.HTTPError
         else if all_bindable home path_exists (games_of response)
              then Sync.Committed (Sync.upsert_all home path_exists (games_of response) db)
              else Sync.OverflowError.
Proof.
  unfold Sync.run. cbv zeta. fold (games_of response). rewrite execute_all_spec.
  destruct (all_bindable home path_exists (games_of response)); reflexivity.
Qed.

Lemma http_ok_iff {J : Type} (response : Response J) :
  http_ok response <->
  (Z.leb 400 (status_code response) && Z.ltb (status_code response) 600)%bool = false.
Proof.
  unfold http_ok. rewrite andb_false_iff, Z.leb_gt, Z.ltb_ge. reflexivity.
Qed.

Lemma run_committed (key id : option string)
      (response : Response (option (list Sync.OwnedGame))) (db : Sync.Table) :
  truthy key = true -> truthy id = true -> http_ok response ->
  all_bindable home path_exists (games_of response) = true ->
  Sync.run home path_exists key id response db
  = Sync.Committed (Sync.upsert_all home path_exists (games_of response) db).
Proof.
  intros Hk Hi Hst Hb. rewrite run_cases, Hk, Hi, Hb.
  apply http_ok_iff in Hst. rewrite Hst. reflexivity.
Qed.

(** Whatever the outcome, the table after the run is the table found or
    the table of the loop. *)
Lemma table_after_cases (key id : option string)
      (response : Response (option (list Sync.OwnedGame))) (db : Sync.Table) :
  (Sync.table_after home path_exists key id response db = db /\
   forall t, Sync.table_after home path_exists key id response t = t) \/
  (forall t, Sync.table_after home path_exists key id response t
             = Sync.upsert_all home path_exists (games_of response) t).
Proof.
  unfold Sync.table_after.
  destruct (negb (truthy key) || negb (truthy id)) eqn:E1;
    [left; split; [|intros t]; rewrite run_cases, E1; reflexivity|].
  destruct (Z.leb 400 (status_code response) && Z.ltb (status_code response) 600)%bool eqn:E2;
    [left; split; [|intros t]; rewrite run_cases, E1, E2; reflexivity|].
  destruct (all_bindable home path_exists (games_of response)) eqn:E3.
  - right. intros t. rewrite run_cases, E1, E2, E3. reflexivity.
  - left. split; [|intros t]; rewrite run_cases, E1, E2, E3; reflexivity.
Qed.
End SyncRun.

(** C10, as the code has it.  The games table is keyed by appid and every
    row is written with INSERT OR REPLACE: after any run, whether it
    commits or ends in an error, the table has at most one row per appid,
    and running the sync again on the same service data, with the same
    manifest files on disk, leaves the table as the first run left it.  A
    run commits the table of the loop when the credentials are set, the
    answer is not an error and every integer fits SQLite's 64 bits. *)
Theorem C10_upsert_keyed_idempotent
        (home : string) (path_exists : string -> bool) (key id : option string)
        (response : Response (option (list Sync.OwnedGame))) (db : Sync.Table) :
  Sync.primary_key_ok db ->
  Sync.primary_key_ok (Sync.table_after home path_exists key id response db) /\
  Sync.table_after home path_exists key id response
                   (Sync.table_after home path_exists key id response db)
  = Sync.table_after home path_exists key id response db /\
  (truthy key = true -> truthy id = true -> http_ok response ->
   all_bindable home path_exists (games_of response) = true ->
   Sync.run home path_exists key id response db
   = Sync.Committed (Sync.upsert_all home path_exists (games_of response) db) /\
   Sync.table_after home path_exists key id response db
   = Sync.upsert_all home path_exists (games_of response) db).
Proof.
  intros Hdb. split; [|split].
  - destruct (table_after_cases home path_exists key id response db) as [[E _]|E].
    + rewrite E. exact Hdb.
    + rewrite E. apply upsert_all_key_ok, Hdb.
  - destruct (table_after_cases home path_exists key id response db) as [[_ E]|E].
    + rewrite !E. reflexivity.
    + rewrite !E. apply upsert_all_idempotent.
  - intros Hk Hi Hst Hb.
    pose proof (run_committed home path_exists key id response db Hk Hi Hst Hb) as Hrun.
    split; [exact Hrun|]. unfold Sync.table_after. rewrite Hrun. reflexivity.
Qed.

Lemma C10_upsert_keyed_idempotent_witness :
  Sync.primary_key_ok
    (Sync.table_after "/home/u" Sample.no_manifest (Some "k") (Some "id") Sample.owned
                      [Sample.old_row]) /\
  Sync.table_after "/home/u" Sample.no_manifest (Some "k") (Some "id") Sample.owned
    (Sync.table_after "/home/u" Sample.no_manifest (Some "k") (Some "id") Sample.owned
                      [Sample.old_row])
  = Sync.table_after "/home/u" Sample.no_manifest (Some "k") (Some "id") Sample.owned
                     [Sample.old_row] /\
  Sync.run "/home/u" Sample.no_manifest (Some "k") (Some "id") Sample.owned [Sample.old_row]
  = Sync.Committed
      (Sync.upsert_all "/home/u" Sample.no_manifest (games_of Sample.owned) [Sample.old_row]).
Proof.
  destruct (C10_upsert_keyed_idempotent "/home/u" Sample.no_manifest (Some "k") (Some "id")
              Sample.owned [Sample.old_row]) as (Hkey & Hidem & Hrun).
  - constructor; [intros [] | constructor].
  - split; [exact Hkey|]. split; [exact Hidem|].
    apply Hrun.
    + reflexivity.
    + reflexivity.
    + left. reflexivity.
    + reflexivity.
Defined.

(** The claim as stated fails: the [installed] column is read from the
    disk, so a second run on the same service data, after the game's
    manifest file appeared, rewrites the row. *)
Lemma C10_counterexample :
  exists t1 t2,
    Sync.run "/home/u" Sample.no_manifest (Some "k") (Some "id") Sample.owned []
    = Sync.Committed t1 /\
    Sync.run "/home/u" Sample.manifest_there (Some "k") (Some "id") Sample.owned t1
    = Sync.Committed t2 /\
    t2 <> t1.
Proof.
  exists [ {| Sync.appid := 10; Sync.name := "Alpha"; Sync.playtime_forever := 3;
              Sync.last_played := 0; Sync.installed := 0 |} ],
         [ {| Sync.appid := 10; Sync.name := "Alpha"; Sync.playtime_forever := 3;
              Sync.last_played := 0; Sync.installed := 1 |} ].
  split; [reflexivity|]. split; [reflexivity|]. discriminate.
Qed.

Example run_overflow_keeps_table :
  Sync.run "/home/u" Sample.no_manifest (Some "k") (Some "id") Fixture.owned_huge
           [Sample.old_row] = Sync.OverflowError /\
  Sync.table_after "/home/u" Sample.no_manifest (Some "k") (Some "id") Fixture.owned_huge
                   [Sample.old_row] = [Sample.old_row].
Proof. split; reflexivity. Qed.

Example take_counts_characters :
  take 2 "héllo" = "hé" /\ String.length (take 2 "héllo") = 3%nat.
Proof. split; reflexivity. Qed.

Example run_replaces_old_row :
  Sync.run "/home/u" Sample.no_manifest (Some "k") (Some "id") Sample.owned [Sample.old_row]
  = Sync.Committed
      [ {| Sync.appid := 10; Sync.name := "Alpha"; Sync.playtime_forever := 3;
           Sync.last_played := 0; Sync.installed := 0 |} ].
Proof. reflexivity. Qed.

(* ------------------------------------------------------------------ *)
(** * A full run *)

Example remove_all_sample : remove_all "app/" "app/12app/3" = "123".
Proof. reflexivity. Qed.

Example main_prices_run :
  exit_status (main Sample.cfg Sample.svc_prices "deal") = 0%Z /\
  filter is_request (trace (main Sample.cfg Sample.svc_prices "deal"))
  = [ Requested (GetWishlist (Some "steam-key") "76561198000000000");
      Requested (GetAppDetails "10");
      Requested (PostLookup (Some "itad-key") 61 ["app/10"]);
      Requested (PostPrices (Some "itad-key") "BR" 61 ["u1"]) ] /\
  filter is_rendered (trace (main Sample.cfg Sample.svc_prices "deal"))
  = [ Rendered "🎮 Steam Wishlist — Current Sales  [dim](sorted by: Best Deal)[/dim]"
        [ {| r_name := "Alpha"; r_current_price := 5; r_regular_price := 20;
             r_discount_percent := 0; r_url := ""; r_store_low := Some 4%Q;
             r_historical_low := Some 4%Q;
             r_deal_tag := DEAL_TAGS on_sale_tag |} ] ].
Proof. repeat split. Qed.

(* ------------------------------------------------------------------ *)
(** * More on the ranker *)

Section SortedAgain.
Context {A K : Type}.
Variable ltb : K -> K -> bool.
Variable key : A -> K.
Hypothesis ltb_asym : forall a b, ltb (key a) (key b) = true -> ltb (key b) (key a) = false.
Hypothesis not_after_trans :
  forall a b c, not_after ltb key a b -> not_after ltb key b c -> not_after ltb key a c.

(** Sorting a sorted list changes nothing. *)
Lemma sort_asc_fixed (l : list A) :
  StronglySorted (not_after ltb key) l -> sort_asc ltb key l = l.
Proof.
  induction 1 as [|x l Hs IH Hx]; simpl.
  - reflexivity.
  - rewrite IH. destruct l as [|y l]; [reflexivity|]. simpl.
    apply Forall_inv in Hx. unfold not_after in Hx. rewrite Hx. reflexivity.
Qed.

Lemma sorted_twice (reverse : bool) (l : list A) :
  sorted ltb key reverse (sorted ltb key reverse l) = sorted ltb key reverse l.
Proof.
  unfold sorted. destruct reverse.
  - rewrite rev_involutive. f_equal.
    apply sort_asc_fixed, sort_asc_sorted; assumption.
  - apply sort_asc_fixed, sort_asc_sorted; assumption.
Qed.
End SortedAgain.

Lemma StronglySorted_snoc {A : Type} (R : A -> A -> Prop) (l : list A) (x : A) :
  StronglySorted R l -> Forall (fun y => R y x) l -> StronglySorted R (l ++ [x])%list.
Proof.
  induction 1 as [|y l Hs IH Hy]; intros Hx; simpl.
  - constructor; constructor.
  - apply Forall_cons_iff in Hx as [Hyx Hx]. constructor.
    + apply IH, Hx.
    + apply Forall_app. split; [exact Hy | constructor; [exact Hyx | constructor]].
Qed.

Lemma StronglySorted_rev {A : Type} (R : A -> A -> Prop) (l : list A) :
  StronglySorted R l -> StronglySorted (fun a b => R b a) (rev l).
Proof.
  induction 1 as [|x l Hs IH Hx]; simpl.
  - constructor.
  - apply StronglySorted_snoc; [exact IH|].
    apply Forall_forall. intros y Hy. apply in_rev in Hy.
    rewrite Forall_forall in Hx. apply Hx, Hy.
Qed.

Lemma Qltb_asym (a b : Q) : Qltb a b = true -> Qltb b a = false.
Proof.
  intros H. apply Qltb_false, Qlt_le_weak, Qltb_true, H.
Qed.

Lemma Qltb_not_after_trans (a b c : Q) :
  Qltb b a = false -> Qltb c b = false -> Qltb c a = false.
Proof.
  rewrite !Qltb_false. intros H1 H2. eapply Qle_trans; eauto.
Qed.

Lemma price_sort_twice (results : list DealResult) :
  sorted Qltb price_key false (sorted Qltb price_key false results)
  = sorted Qltb price_key false results.
Proof.
  apply sorted_twice.
  - intros a b. apply Qltb_asym.
  - intros a b c. unfold not_after. apply Qltb_not_after_trans.
Qed.

Lemma discount_sort_twice (results : list DealResult) :
  sorted Z.ltb discount_key true (sorted Z.ltb discount_key true results)
  = sorted Z.ltb discount_key true results.
Proof.
  apply sorted_twice.
  - intros a b H. apply Z.ltb_lt in H. apply Z.ltb_ge. lia.
  - intros a b c. unfold not_after. rewrite !Z.ltb_ge. lia.
Qed.

Lemma deal_sort_twice (results : list DealResult) :
  sorted pair_ltb deal_key false (sorted pair_ltb deal_key false results)
  = sorted pair_ltb deal_key false results.
Proof.
  apply sorted_twice.
  - apply pair_ltb_asym.
  - intros a b c Hab Hbc. apply pair_not_after.
    apply deal_le_trans with b; apply pair_not_after; assumption.
Qed.

Lemma sort_results_strategy (results : list DealResult) (sort_by : string) :
  sort_results results sort_by = sorted Z.ltb discount_key true results \/
  sort_results results sort_by = sorted Qltb price_key false results \/
  sort_results results sort_by = sorted pair_ltb deal_key false results.
Proof.
  unfold sort_results.
  destruct (String.eqb sort_by "discount"); [auto|].
  destruct (String.eqb sort_by "price"); auto.
Qed.

(** X1. Whatever the strategy name, known or not, the ranker returns a
    rearrangement of its input: no row is lost, added or repeated, and the
    number of rows is kept. *)
Theorem X1_ranker_keeps_rows (results : list DealResult) (sort_by : string) :
  Permutation results (sort_results results sort_by) /\
  length (sort_results results sort_by) = length results.
Proof.
  assert (H : Permutation results (sort_results results sort_by)).
  { destruct (sort_results_strategy results sort_by) as [E|[E|E]];
      rewrite E; apply sorted_perm. }
  split; [exact H|]. symmetry. apply Permutation_length, H.
Qed.

(** X2. Ranking is idempotent for every strategy name: ranking an already
    ranked list with the same strategy returns it unchanged. *)
Theorem X2_ranker_idempotent (results : list DealResult) (sort_by : string) :
  sort_results (sort_results results sort_by) sort_by = sort_results results sort_by.
Proof.
  unfold sort_results.
  destruct (String.eqb sort_by "discount"); [apply discount_sort_twice|].
  destruct (String.eqb sort_by "price"); [apply price_sort_twice | apply deal_sort_twice].
Qed.

(** X3. Under the "price" strategy the output is in ascending order of
    current price: no row stands before a cheaper one. *)
Theorem X3_price_strategy_ascending (results : list DealResult) :
  StronglySorted price_le (sort_results results "price").
Proof.
  rewrite sort_results_price.
  apply StronglySorted_weaken with (R := not_after Qltb price_key).
  - intros a b. unfold not_after, price_le, price_key. apply Qltb_false.
  - apply sort_asc_sorted.
    + intros a b. apply Qltb_asym.
    + intros a b c. unfold not_after. apply Qltb_not_after_trans.
Qed.

(** X4. Under the "discount" strategy the output is in descending order of
    discount percentage: no row stands before one with a higher discount. *)
Theorem X4_discount_strategy_descending (results : list DealResult) :
  StronglySorted discount_ge (sort_results results "discount").
Proof.
  rewrite sort_results_discount. unfold sorted.
  apply StronglySorted_weaken
    with (R := fun a b => not_after Z.ltb discount_key b a).
  - intros a b. unfold not_after, discount_ge, discount_key. rewrite Z.ltb_ge. lia.
  - apply StronglySorted_rev. apply sort_asc_sorted.
    + intros a b H. apply Z.ltb_lt in H. apply Z.ltb_ge. lia.
    + intros a b c. unfold not_after. rewrite !Z.ltb_ge. lia.
Qed.

(** X5. The "deal" strategy is stable as well: the rows of one rank and
    one price form the same sequence in the output as in the input. *)
Theorem X5_deal_strategy_stable (results : list DealResult) (k : Z) (p : Q) :
  filter (same_deal_key k p) (sort_results results "deal")
  = filter (same_deal_key k p) results.
Proof.
  rewrite sort_results_deal. apply sorted_filter.
  unfold same_deal_key. intros x y Hx Hy.
  apply andb_true_iff in Hx as [Hx1 Hx2]. apply andb_true_iff in Hy as [Hy1 Hy2].
  apply Z.eqb_eq in Hx1, Hy1. apply Qeq_bool_eq in Hx2, Hy2.
  apply pair_not_after. right. split; [congruence|].
  rewrite Hx2, Hy2. apply Qle_refl.
Qed.

(* ------------------------------------------------------------------ *)
(** * More on the classifier *)

Lemma at_or_below_mono (c c' : Q) (baseline : option Q) :
  (c' <= c)%Q -> at_or_below c baseline = true -> at_or_below c' baseline = true.
Proof.
  destruct baseline as [b|]; simpl; [|discriminate].
  unfold Qleb. rewrite !Qle_bool_iff. intros H1 H2. eapply Qle_trans; eauto.
Qed.

(** X6. With the baselines unchanged, a lower current price never gives a
    weaker tier: the severity rank can only stay or go down. *)
Theorem X6_cheaper_is_never_weaker (p p' : PriceRecord) :
  same_baselines p p' ->
  (current_price p' <= current_price p)%Q ->
  (tier p' <= tier p)%Z.
Proof.
  intros (E0 & E1 & E2) Hle. rewrite (tier_cases p), (tier_cases p').
  rewrite <- E0, <- E1, <- E2.
  pose proof (at_or_below_mono _ _ (store_low p) Hle) as M0.
  pose proof (at_or_below_mono _ _ (historical_low p) Hle) as M1.
  pose proof (at_or_below_mono _ _ (one_year_low p) Hle) as M2.
  destruct (at_or_below (current_price p) (store_low p));
  destruct (at_or_below (current_price p) (historical_low p));
  destruct (at_or_below (current_price p) (one_year_low p));
    try rewrite (M0 eq_refl); try rewrite (M1 eq_refl); try rewrite (M2 eq_refl);
    repeat match goal with |- context [if ?b then _ else _] => destruct b end; lia.
Qed.

Lemma X6_cheaper_is_never_weaker_witness :
  (tier Sample.both_lows <= tier Fixture.dearer)%Z.
Proof.
  apply (X6_cheaper_is_never_weaker Fixture.dearer Sample.both_lows).
  - repeat split.
  - apply Qle_bool_iff. reflexivity.
Defined.

(* ------------------------------------------------------------------ *)
(** * Key order of dicts *)

Lemma mem_In (k : string) (ks : list string) : mem k ks = true <-> In k ks.
Proof.
  unfold mem. rewrite existsb_exists. split.
  - intros (x & Hx & E). apply String.eqb_eq in E. subst. exact Hx.
  - intros H. exists k. split; [exact H | apply String.eqb_refl].
Qed.

Lemma keys_dict_set {V : Type} (k : string) (v : V) (d : dict V) :
  keys (dict_set k v d) = if mem k (keys d) then keys d else (keys d ++ [k])%list.
Proof.
  unfold keys, mem. induction d as [|[k' v'] d IH]; simpl.
  - reflexivity.
  - rewrite (String.eqb_sym k k').
    destruct (String.eqb k' k) eqn:E; simpl.
    + apply String.eqb_eq in E. subst. reflexivity.
    + rewrite IH. destruct (existsb (String.eqb k) (map fst d)); reflexivity.
Qed.

Lemma dict_set_NoDup {V : Type} (k : string) (v : V) (d : dict V) :
  NoDup (keys d) -> NoDup (keys (dict_set k v d)).
Proof.
  intros H. rewrite keys_dict_set. destruct (mem k (keys d)) eqn:E; [exact H|].
  apply (Permutation_NoDup (Permutation_cons_append _ _)).
  constructor; [|exact H]. intros Hin. apply mem_In in Hin. congruence.
Qed.

Lemma first_seen_In (l : list string) (x : string) : In x (first_seen l) <-> In x l.
Proof.
  induction l as [|y l IH]; simpl; [tauto|].
  rewrite filter_In, IH, negb_true_iff. split.
  - intros [E|[H _]]; auto.
  - intros [E|H]; [auto|].
    destruct (String.eqb_spec x y) as [->|N]; [auto|]. right. auto.
Qed.

Lemma first_seen_NoDup (l : list string) : NoDup (first_seen l).
Proof.
  induction l as [|y l IH]; simpl; constructor.
  - rewrite filter_In, String.eqb_refl. intros [_ H]. discriminate H.
  - apply NoDup_filter, IH.
Qed.

Lemma filter_narrow {A : Type} (p q : A -> bool) (l : list A) :
  (forall x, p x = true -> q x = true) -> filter p (filter q l) = filter p l.
Proof.
  intros H. induction l as [|x l IH]; simpl; [reflexivity|].
  destruct (q x) eqn:Eq; simpl.
  - rewrite IH. reflexivity.
  - destruct (p x) eqn:Ep; [|exact IH]. rewrite (H x Ep) in Eq. discriminate Eq.
Qed.

Section FoldSet.
Context {X V : Type}.
Variable kf : X -> string.
Variable vf : X -> V.

(** The dict after assigning [vf x] to key [kf x] for each [x] in turn. *)
Let assign (d : dict V) (x : X) : dict V := dict_set (kf x) (vf x) d.

Lemma fold_set_keys (l : list X) (d : dict V) :
  keys (fold_left assign l d)
  = (keys d ++ filter (fun y => negb (mem y (keys d))) (first_seen (map kf l)))%list.
Proof.
  revert d. induction l as [|x l IH]; intros d; simpl.
  - rewrite app_nil_r. reflexivity.
  - rewrite IH. unfold assign. rewrite keys_dict_set.
    destruct (mem (kf x) (keys d)) eqn:E; simpl.
    + f_equal. symmetry. apply filter_narrow.
      intros y Hy. apply negb_true_iff in Hy. apply negb_true_iff.
      destruct (String.eqb_spec y (kf x)) as [->|]; [congruence | reflexivity].
    + rewrite <- app_assoc. simpl. do 2 f_equal.
      rewrite <- (filter_narrow (fun y => negb (mem y (keys d ++ [kf x])))
                               (fun y => negb (String.eqb y (kf x)))
                               (first_seen (map kf l))).
      * apply filter_ext_in. intros y Hy. apply filter_In in Hy as [_ Hy].
        apply negb_true_iff in Hy. unfold mem. rewrite existsb_app. simpl.
        rewrite Hy, !orb_false_r. reflexivity.
      * intros y Hy. unfold mem in Hy. rewrite existsb_app in Hy. simpl in Hy.
        rewrite orb_false_r, negb_orb in Hy. apply andb_true_iff in Hy. apply Hy.
Qed.

Lemma fold_set_keys_nil (l : list X) :
  keys (fold_left assign l []) = first_seen (map kf l).
Proof.
  rewrite fold_set_keys. simpl. apply filter_all. reflexivity.
Qed.

(** When the value is a function of the key, every key holds it. *)
Lemma fold_set_get (g : string -> V) (l : list X) (d : dict V) (k : string) :
  (forall x, vf x = g (kf x)) ->
  In k (map kf l) -> dict_get k (fold_left assign l d) = Some (g k).
Proof.
  intros Hg. revert d. induction l as [|x l IH]; intros d; simpl; [intros []|].
  intros Hin.
  destruct (in_dec string_dec k (map kf l)) as [Hl|Hl]; [apply IH, Hl|].
  destruct Hin as [E|Hin]; [|contradiction].
  clear IH. assert (H0 : dict_get k (assign d x) = Some (g k)).
  { unfold assign. rewrite E, Hg, E. apply dict_get_set_same. }
  revert H0. generalize (assign d x).
  induction l as [|y l IH]; intros d' H0; simpl; [exact H0|].
  apply IH.
  - intros H. apply Hl. right. exact H.
  - unfold assign. rewrite dict_get_set_other; [exact H0|].
    intros Ey. apply Hl. left. exact Ey.
Qed.
End FoldSet.

(* ------------------------------------------------------------------ *)
(** * A stage that fails *)

Lemma fetch_steam_wishlist_fail (cfg : Config) (svc : Services) (steam_id : string) :
  status_code (wishlist_response cfg svc steam_id) <> 200%Z ->
  fetch_steam_wishlist cfg svc steam_id
  = ([ Printed ("[cyan]Fetching Steam wishlist for ID:[/cyan] " ++ steam_id);
       Requested (GetWishlist (STEAM_API_KEY cfg) steam_id);
       Printed ("[red]Steam API error "
                ++ str (status_code (wishlist_response cfg svc steam_id))
                ++ ":[/red] " ++ take 300 (text (wishlist_response cfg svc steam_id))) ],
     Exit 1%Z).
Proof.
  unfold wishlist_response, fetch_steam_wishlist. intros H. cbv zeta.
  apply Z.eqb_neq in H. rewrite H. reflexivity.
Qed.

Lemma itad_lookup_ids_fail (cfg : Config) (svc : Services) (app_ids : list string) :
  status_code (lookup_response cfg svc app_ids) <> 200%Z ->
  itad_lookup_ids cfg svc app_ids
  = ([ Requested (PostLookup (ITAD_API_KEY cfg) ITAD_STEAM_SHOP_ID
                             (map (fun app_id => "app/" ++ app_id) app_ids));
       Printed ("[red]ITAD lookup error "
                ++ str (status_code (lookup_response cfg svc app_ids))
                ++ ":[/red] " ++ take 300 (text (lookup_response cfg svc app_ids))) ],
     Exit 1%Z).
Proof.
  unfold lookup_response, itad_lookup_ids. intros H. cbv zeta.
  apply Z.eqb_neq in H. rewrite H. reflexivity.
Qed.

Lemma itad_get_prices_fail (cfg : Config) (svc : Services) (itad_ids : list string)
      (country : string) :
  status_code (prices_response cfg svc itad_ids country) <> 200%Z ->
  itad_get_prices cfg svc itad_ids country
  = ([ Requested (PostPrices (ITAD_API_KEY cfg) (upper country) ITAD_STEAM_SHOP_ID itad_ids);
       Printed ("[red]ITAD prices error "
                ++ str (status_code (prices_response cfg svc itad_ids country))
                ++ ":[/red] " ++ take 300 (text (prices_response cfg svc itad_ids country))) ],
     Exit 1%Z).
Proof.
  unfold prices_response, itad_get_prices. intros H. cbv zeta.
  apply Z.eqb_neq in H. rewrite H. reflexivity.
Qed.

(* ------------------------------------------------------------------ *)
(** * Fetching the wishlist *)

Lemma resolve_names_run (svc : Services) (app_ids : list string) (games : dict string) :
  resolve_names svc app_ids games
  = (map (fun app_id => Requested (GetAppDetails app_id)) app_ids,
     Ret (fold_left
            (fun d app_id => dict_set app_id (app_name app_id (steam_appdetails svc app_id)) d)
            app_ids games)).
Proof.
  revert games. induction app_ids as [|app_id rest IH]; intros games; simpl.
  - reflexivity.
  - rewrite IH. reflexivity.
Qed.

Lemma fetch_steam_wishlist_ok (cfg : Config) (svc : Services) (steam_id : string) :
  status_code (wishlist_response cfg svc steam_id) = 200%Z ->
  result (fetch_steam_wishlist cfg svc steam_id)
  = Ret (fold_left
           (fun d app_id => dict_set app_id (app_name app_id (steam_appdetails svc app_id)) d)
           (feed_app_ids (json (wishlist_response cfg svc steam_id))) []) /\
  requests (trace (fetch_steam_wishlist cfg svc steam_id))
  = Requested (GetWishlist (STEAM_API_KEY cfg) steam_id)
      :: map (fun app_id => Requested (GetAppDetails app_id))
             (feed_app_ids (json (wishlist_response cfg svc steam_id))).
Proof.
  unfold wishlist_response, fetch_steam_wishlist. intros H. cbv zeta. rewrite H.
  cbn [Z.eqb Pos.eqb negb].
  destruct (json (steam_wishlist svc (STEAM_API_KEY cfg) steam_id)) as [|item items].
  - split; reflexivity.
  - fold (feed_app_ids (item :: items)). rewrite resolve_names_run.
    cbn [bind print ret result trace fst snd app]. split; [reflexivity|].
    unfold requests. cbn [filter is_request]. f_equal.
    apply filter_all. intros e He. apply in_map_iff in He as (x & <- & _). reflexivity.
Qed.

(** X7. When the wishlist request succeeds, the function returns a dict
    whose keys are the app ids of the feed items that carry one, each once
    and in feed order.  Each key holds the name appdetails reported with
    success, or else the placeholder "AppID <id>": a failing or missing
    appdetails answer never aborts the fetch. *)
Theorem X7_wishlist_keys_and_names (cfg : Config) (svc : Services) (steam_id : string) :
  status_code (wishlist_response cfg svc steam_id) = 200%Z ->
  exists wishlist,
    result (fetch_steam_wishlist cfg svc steam_id) = Ret wishlist /\
    keys wishlist = first_seen (feed_app_ids (json (wishlist_response cfg svc steam_id))) /\
    NoDup (keys wishlist) /\
    forall k, In k (keys wishlist) ->
      (forall n, steam_appdetails svc k = Detail true (Some n) ->
                 dict_get k wishlist = Some n) /\
      ((forall n, steam_appdetails svc k <> Detail true (Some n)) ->
       dict_get k wishlist = Some ("AppID " ++ k)).
Proof.
  intros Hst. destruct (fetch_steam_wishlist_ok cfg svc steam_id Hst) as [Hres _].
  eexists. split; [exact Hres|].
  pose proof (fold_set_keys_nil (fun app_id : string => app_id)
                (fun app_id => app_name app_id (steam_appdetails svc app_id))
                (feed_app_ids (json (wishlist_response cfg svc steam_id)))) as Hk.
  rewrite map_id in Hk. split; [exact Hk|].
  split; [rewrite Hk; apply first_seen_NoDup|].
  intros k Hin. rewrite Hk in Hin. apply (proj1 (first_seen_In _ _)) in Hin.
  assert (Hget := fold_set_get (fun app_id : string => app_id)
                    (fun app_id => app_name app_id (steam_appdetails svc app_id))
                    (fun app_id => app_name app_id (steam_appdetails svc app_id))
                    (feed_app_ids (json (wishlist_response cfg svc steam_id))) [] k
                    (fun _ => eq_refl)).
  rewrite map_id in Hget. specialize (Hget Hin). rewrite Hget. split.
  - intros n ->. reflexivity.
  - intros Hn. f_equal. unfold app_name.
    destruct (steam_appdetails svc k) as [|[|] [n|]]; try reflexivity.
    exfalso. apply (Hn n). reflexivity.
Qed.

Lemma X7_wishlist_keys_and_names_witness :
  exists wishlist,
    result (fetch_steam_wishlist Sample.cfg Fixture.svc_feed "76561198000000000")
    = Ret wishlist /\
    keys wishlist = ["10"; "20"] /\
    dict_get "10" wishlist = Some "Alpha" /\
    dict_get "20" wishlist = Some "AppID 20".
Proof.
  destruct (X7_wishlist_keys_and_names Sample.cfg Fixture.svc_feed "76561198000000000")
    as (wishlist & Hres & Hkeys & _ & Hnames).
  - reflexivity.
  - exists wishlist. split; [exact Hres|]. split; [exact Hkeys|]. split.
    + apply (Hnames "10"); [rewrite Hkeys; left; reflexivity | reflexivity].
    + apply (Hnames "20"); [rewrite Hkeys; right; left; reflexivity|].
      intros n H. discriminate H.
Defined.

(** X8. A successful fetch makes the wishlist request and then one
    appdetails request per feed item that carries an appid, in feed order,
    repeats included; on an empty feed it makes the wishlist request only. *)
Theorem X8_one_appdetails_request_per_item (cfg : Config) (svc : Services) (steam_id : string) :
  status_code (wishlist_response cfg svc steam_id) = 200%Z ->
  requests (trace (fetch_steam_wishlist cfg svc steam_id))
  = Requested (GetWishlist (STEAM_API_KEY cfg) steam_id)
      :: map (fun app_id => Requested (GetAppDetails app_id))
             (feed_app_ids (json (wishlist_response cfg svc steam_id))).
Proof.
  intros Hst. apply (fetch_steam_wishlist_ok cfg svc steam_id Hst).
Qed.

Lemma X8_one_appdetails_request_per_item_witness :
  requests (trace (fetch_steam_wishlist Sample.cfg Fixture.svc_feed "76561198000000000"))
  = [ Requested (GetWishlist (Some "steam-key") "76561198000000000");
      Requested (GetAppDetails "10"); Requested (GetAppDetails "20");
      Requested (GetAppDetails "10") ].
Proof.
  apply (X8_one_appdetails_request_per_item Sample.cfg Fixture.svc_feed "76561198000000000").
  reflexivity.
Defined.

(** X9. When the wishlist request is answered with a status other than
    200, and neither the Steam id nor the first 300 characters of the
    answer hold a square bracket (the console would read it as markup), the
    fetch exits with status 1 after that single request; the last text
    handed to the console is the red error line made of the status and
    those first 300 characters. *)
Theorem X9_wishlist_failure_is_fatal (cfg : Config) (svc : Services) (steam_id : string) :
  no_bracket steam_id = true ->
  no_bracket (take 300 (text (wishlist_response cfg svc steam_id))) = true ->
  status_code (wishlist_response cfg svc steam_id) <> 200%Z ->
  result (fetch_steam_wishlist cfg svc steam_id) = Exit 1%Z /\
  requests (trace (fetch_steam_wishlist cfg svc steam_id))
  = [Requested (GetWishlist (STEAM_API_KEY cfg) steam_id)] /\
  last_printed (trace (fetch_steam_wishlist cfg svc steam_id))
  = Some ("[red]Steam API error " ++ str (status_code (wishlist_response cfg svc steam_id))
          ++ ":[/red] " ++ take 300 (text (wishlist_response cfg svc steam_id))).
Proof.
  intros _ _ H. rewrite (fetch_steam_wishlist_fail cfg svc steam_id H). repeat split.
Qed.

Lemma X9_wishlist_failure_is_fatal_witness :
  result (fetch_steam_wishlist Sample.cfg Fixture.svc_down "1") = Exit 1%Z /\
  requests (trace (fetch_steam_wishlist Sample.cfg Fixture.svc_down "1"))
  = [Requested (GetWishlist (Some "steam-key") "1")] /\
  last_printed (trace (fetch_steam_wishlist Sample.cfg Fixture.svc_down "1"))
  = Some "[red]Steam API error 503:[/red] Service Unavailable".
Proof.
  apply (X9_wishlist_failure_is_fatal Sample.cfg Fixture.svc_down "1").
  - reflexivity.
  - reflexivity.
  - discriminate.
Defined.

(* ------------------------------------------------------------------ *)
(** * Resolving ids *)

Lemma id_step_NoDup (id_map : dict string) (entry : string * option string) :
  NoDup (keys id_map) -> NoDup (keys (id_step id_map entry)).
Proof.
  intros H. destruct entry as [shop_id [[|c u]|]]; simpl; try exact H.
  apply dict_set_NoDup, H.
Qed.

Lemma fold_id_step_NoDup (data : dict (option string)) (id_map : dict string) :
  NoDup (keys id_map) -> NoDup (keys (fold_left id_step data id_map)).
Proof.
  revert id_map. induction data as [|entry data IH]; intros id_map H; simpl.
  - exact H.
  - apply IH, id_step_NoDup, H.
Qed.

(** Every id of the mapping was read off a non-null, non-empty entry,
    unless it was there before the loop. *)
Lemma fold_id_step_origin (data : dict (option string)) (id_map : dict string)
      (k v : string) :
  dict_get k (fold_left id_step data id_map) = Some v ->
  dict_get k id_map = Some v \/
  (v <> "" /\ exists shop_id, In (shop_id, Some v) data /\ remove_all "app/" shop_id = k).
Proof.
  revert id_map. induction data as [|entry data IH]; intros id_map H; simpl in H.
  - left. exact H.
  - destruct (IH _ H) as [H0|(Hv & shop_id & Hin & Hk)].
    + destruct entry as [shop_id [[|c u]|]]; simpl in H0; try (left; exact H0).
      destruct (String.eqb_spec (remove_all "app/" shop_id) k) as [Ek|Nk].
      * right. rewrite Ek, dict_get_set_same in H0. injection H0 as <-.
        split; [discriminate|]. exists shop_id. split; [left; reflexivity | exact Ek].
      * left. rewrite dict_get_set_other in H0 by exact Nk. exact H0.
    + right. split; [exact Hv|]. exists shop_id. split; [right; exact Hin | exact Hk].
Qed.

(** X10. When the lookup request succeeds, the resolver returns a mapping
    with one entry per Steam app id at most; every id in it is a non-empty
    string read off an entry of the answer whose key, with "app/" removed,
    is the app id.  An app id for which the answer only has null or empty
    ids gets no entry, and nothing is raised for it. *)
Theorem X10_lookup_mapping_contents (cfg : Config) (svc : Services) (app_ids : list string) :
  status_code (lookup_response cfg svc app_ids) = 200%Z ->
  exists id_map,
    result (itad_lookup_ids cfg svc app_ids) = Ret id_map /\
    NoDup (keys id_map) /\
    (forall k v, dict_get k id_map = Some v ->
       v <> "" /\
       exists shop_id, In (shop_id, Some v) (json (lookup_response cfg svc app_ids)) /\
                       remove_all "app/" shop_id = k) /\
    (forall k,
       (forall shop_id v, In (shop_id, v) (json (lookup_response cfg svc app_ids)) ->
                          remove_all "app/" shop_id = k -> truthy v = false) ->
       dict_get k id_map = None).
Proof.
  intros Hst. exists (collect_ids (json (lookup_response cfg svc app_ids))).
  split; [apply itad_lookup_ids_ok, Hst|].
  split; [apply fold_id_step_NoDup; constructor|].
  assert (Horigin : forall k v,
             dict_get k (collect_ids (json (lookup_response cfg svc app_ids))) = Some v ->
             v <> "" /\
             exists shop_id, In (shop_id, Some v) (json (lookup_response cfg svc app_ids)) /\
                             remove_all "app/" shop_id = k).
  { intros k v H. apply fold_id_step_origin in H. destruct H as [H|H]; [discriminate H | exact H]. }
  split; [exact Horigin|].
  intros k Hnull.
  destruct (dict_get k (collect_ids (json (lookup_response cfg svc app_ids)))) as [v|] eqn:E;
    [|reflexivity].
  destruct (Horigin k v E) as (Hv & shop_id & Hin & Hk).
  specialize (Hnull shop_id (Some v) Hin Hk).
  destruct v; [contradiction | discriminate Hnull].
Qed.

Lemma X10_lookup_mapping_contents_witness :
  exists id_map,
    result (itad_lookup_ids Sample.cfg Fixture.svc_lookup ["10"; "20"; "30"; "40"])
    = Ret id_map /\
    id_map = [("10", "u1"); ("40", "u4")] /\ dict_get "20" id_map = None.
Proof.
  destruct (X10_lookup_mapping_contents Sample.cfg Fixture.svc_lookup ["10"; "20"; "30"; "40"])
    as (id_map & Hres & _ & _ & Hnull).
  - reflexivity.
  - exists id_map. split; [exact Hres|]. split.
    + injection Hres as <-. reflexivity.
    + apply Hnull. intros shop_id v [E|[E|[E|[E|[]]]]] Hk;
        injection E as <- <-; try reflexivity; discriminate Hk.
Defined.

(** X11. When the lookup request is answered with a status other than 200,
    and the first 300 characters of the answer hold no square bracket (the
    console would read it as markup), the resolver exits with status 1
    after that single request: no partial mapping is returned.  The last
    text handed to the console is the red error line made of the status
    and those first 300 characters. *)
Theorem X11_lookup_failure_is_fatal (cfg : Config) (svc : Services) (app_ids : list string) :
  no_bracket (take 300 (text (lookup_response cfg svc app_ids))) = true ->
  status_code (lookup_response cfg svc app_ids) <> 200%Z ->
  result (itad_lookup_ids cfg svc app_ids) = Exit 1%Z /\
  requests (trace (itad_lookup_ids cfg svc app_ids))
  = [Requested (PostLookup (ITAD_API_KEY cfg) ITAD_STEAM_SHOP_ID
                           (map (fun app_id => "app/" ++ app_id) app_ids))] /\
  last_printed (trace (itad_lookup_ids cfg svc app_ids))
  = Some ("[red]ITAD lookup error " ++ str (status_code (lookup_response cfg svc app_ids))
          ++ ":[/red] " ++ take 300 (text (lookup_response cfg svc app_ids))).
Proof.
  intros _ H. rewrite (itad_lookup_ids_fail cfg svc app_ids H). repeat split.
Qed.

Lemma X11_lookup_failure_is_fatal_witness :
  result (itad_lookup_ids Sample.cfg Fixture.svc_down ["10"]) = Exit 1%Z /\
  requests (trace (itad_lookup_ids Sample.cfg Fixture.svc_down ["10"]))
  = [Requested (PostLookup (Some "itad-key") 61 ["app/10"])] /\
  last_printed (trace (itad_lookup_ids Sample.cfg Fixture.svc_down ["10"]))
  = Some "[red]ITAD lookup error 503:[/red] Service Unavailable".
Proof.
  apply (X11_lookup_failure_is_fatal Sample.cfg Fixture.svc_down ["10"]).
  - reflexivity.
  - discriminate.
Defined.

(** ** Shop ids and back *)

Lemma remove_from_no_a (s : string) : no_a s = true -> remove_from "app/" 0 s = s.
Proof.
  induction s as [|c s IH]; [reflexivity|].
  cbn [no_a remove_from prefix]. intros H. apply andb_true_iff in H as [Hc Hs].
  destruct (ascii_dec "a" c) as [<-|N]; [discriminate Hc|].
  rewrite (IH Hs). reflexivity.
Qed.

Lemma strip_shop_prefix (s : string) :
  remove_from "app/" 0 ("app/" ++ s) = remove_from "app/" 0 s.
Proof.
  destruct s; reflexivity.
Qed.

Lemma uint_no_a (d : Decimal.uint) : no_a (NilEmpty.string_of_uint d) = true.
Proof.
  induction d; simpl; auto.
Qed.

Lemma str_no_a (n : Z) : no_a (str n) = true.
Proof.
  unfold str. destruct (Z.to_int n) as [d|d]; simpl.
  - destruct d; try reflexivity; apply (uint_no_a (_ d)).
  - destruct d; try reflexivity; apply (uint_no_a (_ d)).
Qed.

(** X12. The shop id sent for a Steam app id leads back to it: removing
    "app/" from "app/<id>" gives the id for every integer app id, so an
    entry of the answer under the shop id sent, holding a non-empty ITAD
    id, is stored under the app id it was asked for. *)
Theorem X12_shop_id_round_trip (n : Z) :
  remove_all "app/" ("app/" ++ str n) = str n /\
  forall (id_map : dict string) (c : ascii) (u : string),
    id_step id_map ("app/" ++ str n, Some (String c u)) = dict_set (str n) (String c u) id_map.
Proof.
  assert (H : remove_all "app/" ("app/" ++ str n) = str n).
  { unfold remove_all. rewrite strip_shop_prefix. apply remove_from_no_a, str_no_a. }
  split; [exact H|]. intros id_map c u. unfold id_step. rewrite H. reflexivity.
Qed.

(* ------------------------------------------------------------------ *)
(** * More on the price aggregator *)

Lemma fold_price_step_selected (items : list Item) (prices : dict PriceRecord) :
  fold_left price_step items prices
  = fold_left (fun d ib => dict_set (item_id (fst ib)) (price_record (fst ib) (snd ib)) d)
              (selected items) prices.
Proof.
  revert prices. induction items as [|item items IH]; intros prices; simpl.
  - reflexivity.
  - rewrite fold_left_app, <- IH. f_equal. unfold price_step.
    destruct (min_by deal_amount (deals item)); reflexivity.
Qed.

Lemma selected_ids (items : list Item) :
  map (fun ib => item_id (fst ib)) (selected items) = map item_id (filter has_deals items).
Proof.
  induction items as [|item items IH]; simpl; [reflexivity|].
  rewrite map_app, IH. unfold has_deals.
  destruct (deals item); reflexivity.
Qed.

Lemma filter_shorter {A : Type} (p : A -> bool) (l : list A) :
  (length (filter p l) <= length l)%nat.
Proof.
  induction l as [|x l IH]; simpl; [lia|]. destruct (p x); simpl; lia.
Qed.

Lemma first_seen_length (l : list string) : (length (first_seen l) <= length l)%nat.
Proof.
  induction l as [|x l IH]; simpl; [lia|].
  pose proof (filter_shorter (fun y => negb (String.eqb y x)) (first_seen l)). lia.
Qed.

(** X13. When the prices request is answered with a status other than
    200, the country is an ASCII code and the first 300 characters of the
    answer hold no square bracket (the console would read it as markup),
    the aggregator exits with status 1 after that single request: no
    partial mapping is returned.  The request carries the ids as given, the
    Steam shop id and the country in upper case.  The last text handed to
    the console is the red error line made of the status and those first
    300 characters. *)
Theorem X13_prices_failure_is_fatal
        (cfg : Config) (svc : Services) (itad_ids : list string) (country : string) :
  is_ascii country = true ->
  no_bracket (take 300 (text (prices_response cfg svc itad_ids country))) = true ->
  status_code (prices_response cfg svc itad_ids country) <> 200%Z ->
  result (itad_get_prices cfg svc itad_ids country) = Exit 1%Z /\
  requests (trace (itad_get_prices cfg svc itad_ids country))
  = [Requested (PostPrices (ITAD_API_KEY cfg) (upper country) ITAD_STEAM_SHOP_ID itad_ids)] /\
  last_printed (trace (itad_get_prices cfg svc itad_ids country))
  = Some ("[red]ITAD prices error "
          ++ str (status_code (prices_response cfg svc itad_ids country))
          ++ ":[/red] " ++ take 300 (text (prices_response cfg svc itad_ids country))).
Proof.
  intros _ _ H. rewrite (itad_get_prices_fail cfg svc itad_ids country H). repeat split.
Qed.

Lemma X13_prices_failure_is_fatal_witness :
  result (itad_get_prices Sample.cfg Fixture.svc_down ["u1"] "br") = Exit 1%Z /\
  requests (trace (itad_get_prices Sample.cfg Fixture.svc_down ["u1"] "br"))
  = [Requested (PostPrices (Some "itad-key") "BR" 61 ["u1"])] /\
  last_printed (trace (itad_get_prices Sample.cfg Fixture.svc_down ["u1"] "br"))
  = Some "[red]ITAD prices error 503:[/red] Service Unavailable".
Proof.
  apply (X13_prices_failure_is_fatal Sample.cfg Fixture.svc_down ["u1"] "br").
  - reflexivity.
  - reflexivity.
  - discriminate.
Defined.

(** X14. When the prices request succeeds, the returned mapping has one
    record per id: its keys are the ids of the items that have deals, each
    once, in the order the ids first appear in the answer.  It has no more
    records than the answer has items. *)
Theorem X14_prices_one_record_per_id
        (cfg : Config) (svc : Services) (itad_ids : list string) (country : string) :
  status_code (prices_response cfg svc itad_ids country) = 200%Z ->
  exists prices,
    result (itad_get_prices cfg svc itad_ids country) = Ret prices /\
    keys prices
    = first_seen (map item_id
                      (filter has_deals (json (prices_response cfg svc itad_ids country)))) /\
    NoDup (keys prices) /\
    (length prices <= length (json (prices_response cfg svc itad_ids country)))%nat.
Proof.
  intros Hst.
  exists (collect_prices (json (prices_response cfg svc itad_ids country))).
  split; [rewrite itad_get_prices_ok by exact Hst; reflexivity|].
  assert (Hk : keys (collect_prices (json (prices_response cfg svc itad_ids country)))
               = first_seen (map item_id
                    (filter has_deals (json (prices_response cfg svc itad_ids country))))).
  { unfold collect_prices. rewrite fold_price_step_selected.
    rewrite (fold_set_keys_nil (fun ib : Item * Deal => item_id (fst ib))
                               (fun ib => price_record (fst ib) (snd ib))).
    rewrite selected_ids. reflexivity. }
  split; [exact Hk|]. split; [rewrite Hk; apply first_seen_NoDup|].
  rewrite <- (length_map fst (collect_prices _)). fold (keys (collect_prices
    (json (prices_response cfg svc itad_ids country)))). rewrite Hk.
  eapply Nat.le_trans; [apply first_seen_length|].
  rewrite length_map. apply filter_shorter.
Qed.

Lemma X14_prices_one_record_per_id_witness :
  exists prices,
    result (itad_get_prices Sample.cfg Fixture.svc_repeat ["u1"; "u3"] "br") = Ret prices /\
    keys prices = ["u1"; "u3"].
Proof.
  destruct (X14_prices_one_record_per_id Sample.cfg Fixture.svc_repeat ["u1"; "u3"] "br")
    as (prices & Hres & Hkeys & _).
  - reflexivity.
  - exists prices. split; [exact Hres | exact Hkeys].
Defined.

(* ------------------------------------------------------------------ *)
(** * Joining names back *)

Lemma dict_get_In {V : Type} (k : string) (v : V) (d : dict V) :
  NoDup (keys d) -> (dict_get k d = Some v <-> In (k, v) d).
Proof.
  unfold keys. induction d as [|[k' v'] d IH]; simpl; intros H.
  - split; [discriminate | contradiction].
  - apply NoDup_cons_iff in H as [Hfresh Hd].
    destruct (String.eqb_spec k' k) as [->|N].
    + split.
      * intros E. injection E as <-. left. reflexivity.
      * intros [E|Hin]; [injection E as <-; reflexivity|].
        exfalso. apply Hfresh. apply in_map_iff. exists (k, v). auto.
    + rewrite (IH Hd). split; [auto|]. intros [E|Hin]; [|exact Hin].
      injection E as E _. contradiction.
Qed.

Lemma fold_invert_other (d acc : dict string) (v : string) :
  ~ In v (values d) ->
  dict_get v (fold_left (fun acc kv => dict_set (snd kv) (fst kv) acc) d acc) = dict_get v acc.
Proof.
  unfold values. revert acc. induction d as [|[k0 v0] d IH]; intros acc H; simpl.
  - reflexivity.
  - rewrite IH.
    + apply dict_get_set_other. intros E. apply H. left. exact E.
    + intros Hin. apply H. right. exact Hin.
Qed.

Lemma invert_get (d : dict string) (k v : string) :
  NoDup (values d) -> In (k, v) d -> dict_get v (invert d) = Some k.
Proof.
  unfold invert, values. generalize (@nil (string * string)).
  induction d as [|[k0 v0] d IH]; intros acc Hnd Hin; [destruct Hin|].
  simpl in Hnd. apply NoDup_cons_iff in Hnd as [Hfresh Hnd]. simpl.
  destruct Hin as [E|Hin].
  - injection E as -> ->. rewrite fold_invert_other by exact Hfresh.
    apply dict_get_set_same.
  - apply IH; assumption.
Qed.

Lemma invert_origin (d : dict string) (k v : string) :
  dict_get v (invert d) = Some k -> In (k, v) d.
Proof.
  unfold invert.
  assert (H : forall acc,
             dict_get v (fold_left (fun acc kv => dict_set (snd kv) (fst kv) acc) d acc)
             = Some k -> dict_get v acc = Some k \/ In (k, v) d).
  { induction d as [|[k0 v0] d IH]; intros acc H; simpl in H; [left; exact H|].
    destruct (IH _ H) as [H0|Hin]; [|right; right; exact Hin].
    simpl in H0. destruct (String.eqb_spec v0 v) as [->|N].
    - rewrite dict_get_set_same in H0. injection H0 as ->. right. left. reflexivity.
    - rewrite dict_get_set_other in H0 by exact N. left. exact H0. }
  intros Hget. destruct (H [] Hget) as [H0|Hin]; [discriminate H0 | exact Hin].
Qed.

(** X15. Inverting the id mapping and looking up is a round trip: when no
    two app ids share an ITAD id, the inverted mapping takes an ITAD id to
    an app id exactly when the mapping takes that app id to that ITAD id. *)
Theorem X15_inverse_mapping_round_trip (steam_to_itad : dict string) (k v : string) :
  NoDup (keys steam_to_itad) ->
  NoDup (values steam_to_itad) ->
  (dict_get v (invert steam_to_itad) = Some k <-> dict_get k steam_to_itad = Some v).
Proof.
  intros Hk Hv. rewrite (dict_get_In k v steam_to_itad Hk). split.
  - apply invert_origin.
  - apply invert_get, Hv.
Qed.

Lemma X15_inverse_mapping_round_trip_witness :
  dict_get "u2" (invert Fixture.resolved) = Some "20" <->
  dict_get "20" Fixture.resolved = Some "u2".
Proof.
  apply (X15_inverse_mapping_round_trip Fixture.resolved "20" "u2").
  - repeat constructor; simpl; intuition discriminate.
  - repeat constructor; simpl; intuition discriminate.
Defined.

(** X16. The row assembled for a price record carries the wishlist name of
    the app the ITAD id was resolved from, when no two app ids share an
    ITAD id.  When the ITAD id was resolved from no app, the row gets the
    placeholder name "ITAD:<id>" instead of failing. *)
Theorem X16_join_names (wishlist steam_to_itad : dict string)
        (itad_id : string) (price_d : PriceRecord) :
  NoDup (values steam_to_itad) ->
  (forall app_id name,
      In (app_id, itad_id) steam_to_itad ->
      dict_get app_id wishlist = Some name ->
      r_name (assemble wishlist (invert steam_to_itad) (itad_id, price_d)) = name) /\
  (~ In itad_id (values steam_to_itad) ->
   dict_get "" wishlist = None ->
   r_name (assemble wishlist (invert steam_to_itad) (itad_id, price_d)) = "ITAD:" ++ itad_id).
Proof.
  intros Hv. split.
  - intros app_id name Hin Hname. unfold assemble. simpl.
    rewrite (invert_get _ _ _ Hv Hin), Hname. reflexivity.
  - intros Hnone Hempty. unfold assemble. simpl.
    destruct (dict_get itad_id (invert steam_to_itad)) as [a|] eqn:E.
    + exfalso. apply Hnone. apply invert_origin in E.
      unfold values. apply in_map_iff. exists (a, itad_id). auto.
    + rewrite Hempty. reflexivity.
Qed.

Lemma X16_join_names_witness :
  r_name (assemble Fixture.names (invert Fixture.resolved) ("u2", Sample.both_lows)) = "Beta" /\
  r_name (assemble Fixture.names (invert Fixture.resolved) ("u9", Sample.both_lows))
  = "ITAD:u9".
Proof.
  destruct (X16_join_names Fixture.names Fixture.resolved "u2" Sample.both_lows) as [H _].
  - repeat constructor; simpl; intuition discriminate.
  - destruct (X16_join_names Fixture.names Fixture.resolved "u9" Sample.both_lows) as [_ H'].
    + repeat constructor; simpl; intuition discriminate.
    + split.
      * apply (H "20"); [right; left; reflexivity | reflexivity].
      * apply H'; [simpl; intuition discriminate | reflexivity].
Defined.

(* ------------------------------------------------------------------ *)
(** * The whole run *)

Lemma bind_exit {A B : Type} (m : M A) (f : A -> M B) (t : list Event) (c : Z) :
  m = (t, Exit c) -> bind m f = (t, Exit c).
Proof. intros ->. reflexivity. Qed.

Lemma trace_bind {A B : Type} (m : M A) (f : A -> M B) :
  trace (bind m f)
  = (trace m ++ match result m with Ret a => trace (f a) | Exit _ => [] end)%list.
Proof.
  destruct m as [t [a|c]]; unfold bind, trace, result; simpl.
  - destruct (f a). reflexivity.
  - rewrite app_nil_r. reflexivity.
Qed.

Lemma result_bind {A B : Type} (m : M A) (f : A -> M B) :
  result (bind m f) = match result m with Ret a => result (f a) | Exit c => Exit c end.
Proof.
  destruct m as [t [a|c]]; unfold bind, result; simpl.
  - destruct (f a). reflexivity.
  - reflexivity.
Qed.

Lemma Forall_trace_bind {A B : Type} (P : Event -> Prop) (m : M A) (f : A -> M B) :
  Forall P (trace m) ->
  (forall a, result m = Ret a -> Forall P (trace (f a))) ->
  Forall P (trace (bind m f)).
Proof.
  intros Hm Hf. rewrite trace_bind. apply Forall_app. split; [exact Hm|].
  destruct (result m) as [a|c]; [apply Hf; reflexivity | constructor].
Qed.

Lemma exits_within_bind {A B : Type} (codes : list Z) (m : M A) (f : A -> M B) :
  exits_within codes m ->
  (forall a, result m = Ret a -> exits_within codes (f a)) ->
  exits_within codes (bind m f).
Proof.
  unfold exits_within. intros Hm Hf. rewrite result_bind.
  destruct (result m) as [a|c]; [apply Hf; reflexivity | exact Hm].
Qed.

(** ** The events of each stage *)

Section StageEvents.
Variable P : Event -> Prop.
Hypothesis P_printed : forall s, P (Printed s).

Lemma fetch_steam_wishlist_events (cfg : Config) (svc : Services) (steam_id : string) :
  P (Requested (GetWishlist (STEAM_API_KEY cfg) steam_id)) ->
  (forall app_id, P (Requested (GetAppDetails app_id))) ->
  Forall P (trace (fetch_steam_wishlist cfg svc steam_id)).
Proof.
  intros Hw Hd. unfold fetch_steam_wishlist. cbv zeta.
  destruct (negb (Z.eqb (status_code (steam_wishlist svc (STEAM_API_KEY cfg) steam_id)) 200)).
  - repeat constructor; auto.
  - destruct (json (steam_wishlist svc (STEAM_API_KEY cfg) steam_id)) as [|item items].
    + repeat constructor; auto.
    + rewrite resolve_names_run. cbn [bind print trace fst app].
      repeat (constructor; auto).
      apply Forall_forall. intros e He. apply in_map_iff in He as (x & <- & _). apply Hd.
Qed.

Lemma itad_lookup_ids_events (cfg : Config) (svc : Services) (app_ids : list string) :
  P (Requested (PostLookup (ITAD_API_KEY cfg) ITAD_STEAM_SHOP_ID
                           (map (fun app_id => "app/" ++ app_id) app_ids))) ->
  Forall P (trace (itad_lookup_ids cfg svc app_ids)).
Proof.
  intros Hq. unfold itad_lookup_ids. cbv zeta.
  destruct (negb (Z.eqb (status_code (itad_lookup svc (ITAD_API_KEY cfg) _ _)) 200));
    repeat constructor; auto.
Qed.

Lemma itad_get_prices_events (cfg : Config) (svc : Services) (itad_ids : list string)
      (country : string) :
  P (Requested (PostPrices (ITAD_API_KEY cfg) (upper country) ITAD_STEAM_SHOP_ID itad_ids)) ->
  Forall P (trace (itad_get_prices cfg svc itad_ids country)).
Proof.
  intros Hq. unfold itad_get_prices. cbv zeta.
  destruct (negb (Z.eqb (status_code (itad_prices svc (ITAD_API_KEY cfg) _ _ _)) 200));
    repeat constructor; auto.
Qed.

Lemma display_results_events (cfg : Config) (results : list DealResult) (sort_by : string) :
  (forall title rows, P (Rendered title rows)) ->
  Forall P (trace (display_results cfg results sort_by)).
Proof.
  intros Hr. destruct results; repeat constructor; auto.
Qed.
End StageEvents.

(** ** The exits of each stage *)

Lemma fetch_steam_wishlist_exits (cfg : Config) (svc : Services) (steam_id : string) :
  exits_within [1%Z] (fetch_steam_wishlist cfg svc steam_id).
Proof.
  unfold exits_within, fetch_steam_wishlist. cbv zeta.
  destruct (negb (Z.eqb (status_code (steam_wishlist svc (STEAM_API_KEY cfg) steam_id)) 200)).
  - left. reflexivity.
  - destruct (json (steam_wishlist svc (STEAM_API_KEY cfg) steam_id)) as [|item items].
    + exact I.
    + rewrite resolve_names_run. exact I.
Qed.

Lemma itad_lookup_ids_exits (cfg : Config) (svc : Services) (app_ids : list string) :
  exits_within [1%Z] (itad_lookup_ids cfg svc app_ids).
Proof.
  unfold exits_within, itad_lookup_ids. cbv zeta.
  destruct (negb (Z.eqb (status_code (itad_lookup svc (ITAD_API_KEY cfg) _ _)) 200)).
  - left. reflexivity.
  - exact I.
Qed.

Lemma itad_get_prices_exits (cfg : Config) (svc : Services) (itad_ids : list string)
      (country : string) :
  exits_within [1%Z] (itad_get_prices cfg svc itad_ids country).
Proof.
  unfold exits_within, itad_get_prices. cbv zeta.
  destruct (negb (Z.eqb (status_code (itad_prices svc (ITAD_API_KEY cfg) _ _ _)) 200)).
  - left. reflexivity.
  - exact I.
Qed.

Lemma display_results_returns (cfg : Config) (results : list DealResult) (sort_by : string) :
  result (display_results cfg results sort_by) = Ret tt.
Proof.
  destruct results; reflexivity.
Qed.

Lemma exits_within_more {A : Type} (codes codes' : list Z) (m : M A) :
  incl codes codes' -> exits_within codes m -> exits_within codes' m.
Proof.
  unfold exits_within. intros Hincl. destruct (result m); [auto | apply Hincl].
Qed.

(** ** From the start to the prices request *)

Lemma main_reaches_pricing (cfg : Config) (svc : Services) (steam_id : string)
      (wishlist steam_to_itad : dict string) (args_sort : string) :
  reaches_pricing cfg svc steam_id wishlist steam_to_itad ->
  main cfg svc args_sort
  = bind (before_pricing cfg svc steam_id wishlist steam_to_itad, Ret tt)
         (fun _ =>
            prices <- itad_get_prices cfg svc (values steam_to_itad) (COUNTRY cfg) ;;
            match prices with
            | [] =>
                print "[yellow]None of your wishlisted games are currently on sale.[/yellow]" ;;
                sys_exit 0
            | _ :: _ =>
                display_results cfg (ranked_rows wishlist steam_to_itad prices args_sort)
                                args_sort
            end).
Proof.
  intros (((H1 & H2 & H3 & Hid) & Hf & Hne) & Hl & Hv).
  unfold before_pricing, ranked_rows.
  destruct wishlist as [|w wishlist]; [congruence|].
  destruct (fetch_steam_wishlist cfg svc steam_id) as [t1 r1] eqn:Ef.
  destruct (itad_lookup_ids cfg svc (keys (w :: wishlist))) as [t2 r2] eqn:El.
  simpl in Hf, Hl. subst r1 r2.
  unfold main. rewrite H1, H2, H3, Hid. cbn [negb]. cbv beta iota.
  rewrite (bind_run _ _ _ _ Ef). cbv beta iota zeta.
  rewrite (bind_run _ _ _ _ (eq_refl : print _ = (_, Ret tt))).
  rewrite (bind_run _ _ _ _ El). cbv beta.
  destruct (values steam_to_itad) as [|v vs] eqn:Ev; [congruence|].
  cbv iota.
  rewrite (bind_run _ _ _ _ (eq_refl : print _ = (_, Ret tt))).
  rewrite (bind_run _ _ _ _ (eq_refl : print _ = (_, Ret tt))).
  match goal with
  | |- context [bind (itad_get_prices ?a ?b ?c ?d) ?f] =>
      destruct (bind (itad_get_prices a b c d) f) as [tk rk]
  end.
  cbn [bind trace result fst snd]. rewrite <- !app_assoc. reflexivity.
Qed.

Lemma before_pricing_quiet (cfg : Config) (svc : Services) (steam_id : string)
      (wishlist steam_to_itad : dict string) :
  Forall quiet (before_pricing cfg svc steam_id wishlist steam_to_itad).
Proof.
  unfold before_pricing.
  repeat (apply Forall_app; split);
    try apply fetch_steam_wishlist_quiet;
    try apply (itad_lookup_ids_trace cfg svc (keys wishlist));
    repeat (constructor; try apply quiet_printed).
Qed.

Lemma filter_app_nil {A : Type} (p : A -> bool) (l1 l2 : list A) :
  filter p l1 = [] -> filter p (l1 ++ l2) = filter p l2.
Proof.
  intros H. rewrite filter_app, H. reflexivity.
Qed.

(** X17. When one of the three credentials is missing or empty, the run
    stops with status 1 before any request is made. *)
Theorem X17_missing_credentials_abort (cfg : Config) (svc : Services) (args_sort : string) :
  truthy (STEAM_ID cfg) = false \/
  truthy (STEAM_API_KEY cfg) = false \/
  truthy (ITAD_API_KEY cfg) = false ->
  exit_status (main cfg svc args_sort) = 1%Z /\
  requests (trace (main cfg svc args_sort)) = [].
Proof.
  intros H. unfold main.
  destruct (truthy (STEAM_ID cfg)); [|split; reflexivity].
  destruct (truthy (STEAM_API_KEY cfg)); [|split; reflexivity].
  destruct (truthy (ITAD_API_KEY cfg)); [|split; reflexivity].
  destruct H as [H|[H|H]]; discriminate H.
Qed.

Lemma X17_missing_credentials_abort_witness :
  exit_status (main Fixture.cfg_no_itad_key Sample.svc_prices "deal") = 1%Z /\
  requests (trace (main Fixture.cfg_no_itad_key Sample.svc_prices "deal")) = [].
Proof.
  apply (X17_missing_credentials_abort Fixture.cfg_no_itad_key Sample.svc_prices "deal").
  right. right. reflexivity.
Defined.

(** X18. When the wishlist request succeeds and no item of the feed
    carries an appid (the feed is empty, for one), the run ends with status
    0 after that single request: neither the lookup nor the price service
    is contacted. *)
Theorem X18_empty_wishlist_ends_run
        (cfg : Config) (svc : Services) (steam_id : string) (args_sort : string) :
  configured cfg steam_id ->
  status_code (wishlist_response cfg svc steam_id) = 200%Z ->
  feed_app_ids (json (wishlist_response cfg svc steam_id)) = [] ->
  exit_status (main cfg svc args_sort) = 0%Z /\
  requests (trace (main cfg svc args_sort))
  = [Requested (GetWishlist (STEAM_API_KEY cfg) steam_id)].
Proof.
  intros (H1 & H2 & H3 & Hid) Hst Hfeed.
  destruct (fetch_steam_wishlist_ok cfg svc steam_id Hst) as [Hres Hreq].
  rewrite Hfeed in Hres, Hreq. simpl in Hres, Hreq.
  destruct (fetch_steam_wishlist cfg svc steam_id) as [t1 r1] eqn:Ef.
  simpl in Hres, Hreq. subst r1.
  assert (Hmain : main cfg svc args_sort = ((t1 ++ [])%list, Exit 0%Z)).
  { unfold main. rewrite H1, H2, H3, Hid. cbn [negb]. cbv beta iota.
    rewrite (bind_run _ _ _ _ Ef). reflexivity. }
  rewrite Hmain, app_nil_r. split; [reflexivity | exact Hreq].
Qed.

Lemma X18_empty_wishlist_ends_run_witness :
  exit_status (main Sample.cfg Sample.svc_empty "deal") = 0%Z /\
  requests (trace (main Sample.cfg Sample.svc_empty "deal"))
  = [Requested (GetWishlist (Some "steam-key") "76561198000000000")].
Proof.
  apply (X18_empty_wishlist_ends_run Sample.cfg Sample.svc_empty "76561198000000000" "deal").
  - repeat split.
  - reflexivity.
  - reflexivity.
Defined.

(** X19. When the wishlist request fails, the run ends with status 1 and
    that request is the only one made. *)
Theorem X19_wishlist_failure_ends_run
        (cfg : Config) (svc : Services) (steam_id : string) (args_sort : string) :
  configured cfg steam_id ->
  status_code (wishlist_response cfg svc steam_id) <> 200%Z ->
  exit_status (main cfg svc args_sort) = 1%Z /\
  requests (trace (main cfg svc args_sort))
  = [Requested (GetWishlist (STEAM_API_KEY cfg) steam_id)].
Proof.
  intros (H1 & H2 & H3 & Hid) Hst.
  pose proof (fetch_steam_wishlist_fail cfg svc steam_id Hst) as Ef.
  unfold main. rewrite H1, H2, H3, Hid. cbn [negb]. cbv beta iota.
  rewrite (bind_exit _ _ _ _ Ef). split; reflexivity.
Qed.

Lemma X19_wishlist_failure_ends_run_witness :
  exit_status (main Sample.cfg Fixture.svc_down "deal") = 1%Z /\
  requests (trace (main Sample.cfg Fixture.svc_down "deal"))
  = [Requested (GetWishlist (Some "steam-key") "76561198000000000")].
Proof.
  apply (X19_wishlist_failure_ends_run Sample.cfg Fixture.svc_down "76561198000000000" "deal").
  - repeat split.
  - discriminate.
Defined.

(** X20. When the lookup request fails, the run ends with status 1: the
    price service is not contacted and nothing is rendered. *)
Theorem X20_lookup_failure_ends_run
        (cfg : Config) (svc : Services) (steam_id : string) (wishlist : dict string)
        (args_sort : string) :
  reaches_lookup cfg svc steam_id wishlist ->
  status_code (lookup_response cfg svc (keys wishlist)) <> 200%Z ->
  exit_status (main cfg svc args_sort) = 1%Z /\
  filter is_prices_request (trace (main cfg svc args_sort)) = [] /\
  filter is_rendered (trace (main cfg svc args_sort)) = [].
Proof.
  intros ((H1 & H2 & H3 & Hid) & Hf & Hne) Hst.
  pose proof (fetch_steam_wishlist_quiet cfg svc steam_id) as Q1.
  pose proof (itad_lookup_ids_trace cfg svc (keys wishlist)) as [_ Q2].
  pose proof (itad_lookup_ids_fail cfg svc (keys wishlist) Hst) as El.
  destruct wishlist as [|w wishlist]; [congruence|].
  destruct (fetch_steam_wishlist cfg svc steam_id) as [t1 r1] eqn:Ef.
  simpl in Hf, Q1. subst r1. rewrite El in Q2. simpl in Q2.
  assert (Hmain : exists t, main cfg svc args_sort = (t, Exit 1%Z) /\ Forall quiet t).
  { unfold main. rewrite H1, H2, H3, Hid. cbn [negb]. cbv beta iota.
    rewrite (bind_run _ _ _ _ Ef). cbv beta iota zeta.
    rewrite (bind_run _ _ _ _ (eq_refl : print _ = (_, Ret tt))).
    rewrite (bind_exit _ _ _ _ El).
    eexists. split; [reflexivity|]. cbn [trace result fst snd].
    apply Forall_app. split; [exact Q1|]. constructor; [apply quiet_printed | exact Q2]. }
  destruct Hmain as (t & -> & Hq). split; [reflexivity|]. apply quiet_filter, Hq.
Qed.

Lemma X20_lookup_failure_ends_run_witness :
  exit_status (main Sample.cfg Fixture.svc_lookup_down "deal") = 1%Z /\
  filter is_prices_request (trace (main Sample.cfg Fixture.svc_lookup_down "deal")) = [] /\
  filter is_rendered (trace (main Sample.cfg Fixture.svc_lookup_down "deal")) = [].
Proof.
  apply (X20_lookup_failure_ends_run Sample.cfg Fixture.svc_lookup_down
           "76561198000000000" [("10", "Alpha")] "deal").
  - repeat split. discriminate.
  - discriminate.
Defined.


Lemma itad_get_prices_no_table (cfg : Config) (svc : Services) (itad_ids : list string)
      (country : string) :
  filter is_rendered (trace (itad_get_prices cfg svc itad_ids country)) = [].
Proof.
  apply filter_none. apply Forall_forall.
  apply itad_get_prices_events; reflexivity.
Qed.

Lemma run_pair {A : Type} (m : M A) (a : A) : result m = Ret a -> m = (trace m, Ret a).
Proof.
  destruct m as [t r]. simpl. intros ->. reflexivity.
Qed.

(** X21. When the prices request fails, the run ends with status 1 and
    nothing is rendered. *)
Theorem X21_prices_failure_ends_run
        (cfg : Config) (svc : Services) (steam_id : string)
        (wishlist steam_to_itad : dict string) (args_sort : string) :
  reaches_pricing cfg svc steam_id wishlist steam_to_itad ->
  status_code (prices_response cfg svc (values steam_to_itad) (COUNTRY cfg)) <> 200%Z ->
  exit_status (main cfg svc args_sort) = 1%Z /\
  filter is_rendered (trace (main cfg svc args_sort)) = [].
Proof.
  intros Hreach Hst.
  rewrite (main_reaches_pricing cfg svc steam_id wishlist steam_to_itad args_sort Hreach).
  rewrite (bind_exit _ _ _ _ (itad_get_prices_fail cfg svc _ _ Hst)).
  cbn [bind exit_status trace result fst snd]. split; [reflexivity|].
  rewrite filter_app_nil; [reflexivity|].
  apply quiet_filter, before_pricing_quiet.
Qed.

Lemma X21_prices_failure_ends_run_witness :
  exit_status (main Sample.cfg Fixture.svc_prices_down "deal") = 1%Z /\
  filter is_rendered (trace (main Sample.cfg Fixture.svc_prices_down "deal")) = [].
Proof.
  apply (X21_prices_failure_ends_run Sample.cfg Fixture.svc_prices_down
           "76561198000000000" [("10", "Alpha")] [("10", "u1")] "deal").
  - repeat split; discriminate.
  - discriminate.
Defined.

(** X22. When the aggregator returns no record (no resolved game has a
    deal), the run ends with status 0 on the line "None of your wishlisted
    games are currently on sale." and nothing is rendered. *)
Theorem X22_nothing_on_sale_ends_run
        (cfg : Config) (svc : Services) (steam_id : string)
        (wishlist steam_to_itad : dict string) (args_sort : string) :
  reaches_pricing cfg svc steam_id wishlist steam_to_itad ->
  result (itad_get_prices cfg svc (values steam_to_itad) (COUNTRY cfg)) = Ret [] ->
  exit_status (main cfg svc args_sort) = 0%Z /\
  last_printed (trace (main cfg svc args_sort))
  = Some "[yellow]None of your wishlisted games are currently on sale.[/yellow]" /\
  filter is_rendered (trace (main cfg svc args_sort)) = [].
Proof.
  intros Hreach Hres.
  rewrite (main_reaches_pricing cfg svc steam_id wishlist steam_to_itad args_sort Hreach).
  pose proof (itad_get_prices_no_table cfg svc (values steam_to_itad) (COUNTRY cfg)) as Hq.
  rewrite (bind_run _ _ _ _ (run_pair _ _ Hres)).
  cbn [bind print sys_exit exit_status trace result fst snd app].
  split; [reflexivity|]. split.
  - rewrite !app_assoc. apply last_printed_end.
  - rewrite filter_app_nil by (apply quiet_filter, before_pricing_quiet).
    rewrite filter_app, Hq. reflexivity.
Qed.

Lemma X22_nothing_on_sale_ends_run_witness :
  exit_status (main Sample.cfg Fixture.svc_no_sale "deal") = 0%Z /\
  last_printed (trace (main Sample.cfg Fixture.svc_no_sale "deal"))
  = Some "[yellow]None of your wishlisted games are currently on sale.[/yellow]" /\
  filter is_rendered (trace (main Sample.cfg Fixture.svc_no_sale "deal")) = [].
Proof.
  apply (X22_nothing_on_sale_ends_run Sample.cfg Fixture.svc_no_sale
           "76561198000000000" [("10", "Alpha")] [("10", "u1")] "deal").
  - repeat split; discriminate.
  - reflexivity.
Defined.



(** X24. No run ever sends an empty batch: whatever the configuration,
    the services' answers and the strategy, every lookup request and every
    prices request of the run carries at least one id. *)
Theorem X24_no_empty_batch_request (cfg : Config) (svc : Services) (args_sort : string) :
  Forall batch_ok (trace (main cfg svc args_sort)).
Proof.
  assert (Hp : forall s, batch_ok (Printed s)) by (intros; exact I).
  unfold main.
  destruct (truthy (STEAM_ID cfg)); cbn [negb]; [|repeat constructor].
  destruct (truthy (STEAM_API_KEY cfg)); cbn [negb]; [|repeat constructor].
  destruct (truthy (ITAD_API_KEY cfg)); cbn [negb]; [|repeat constructor].
  apply Forall_trace_bind.
  - apply fetch_steam_wishlist_events; intros; exact I.
  - intros wishlist _. destruct wishlist as [|w wishlist]; [constructor|].
    apply Forall_trace_bind; [repeat constructor|]. intros _ _.
    apply Forall_trace_bind.
    + apply itad_lookup_ids_events; [exact Hp | discriminate].
    + intros steam_to_itad _. cbv zeta.
      destruct (values steam_to_itad) as [|v vs] eqn:Ev; [repeat constructor|].
      apply Forall_trace_bind; [repeat constructor|]. intros _ _.
      apply Forall_trace_bind; [repeat constructor|]. intros _ _.
      apply Forall_trace_bind.
      * apply itad_get_prices_events; [exact Hp | discriminate].
      * intros prices _. destruct prices as [|p prices]; [repeat constructor|].
        apply display_results_events; intros; exact I.
Qed.

(** X25. Every run that gets past the parsing of the command line, so
    with a strategy among "deal", "discount" and "price", ends with status
    0 or 1, whatever the configuration and the services' answers. *)
Theorem X25_exit_status_is_0_or_1 (cfg : Config) (svc : Services) (args_sort : string) :
  In args_sort sort_choices ->
  exit_status (main cfg svc args_sort) = 0%Z \/ exit_status (main cfg svc args_sort) = 1%Z.
Proof.
  intros _.
  assert (H : exits_within [0%Z; 1%Z] (main cfg svc args_sort)).
  { assert (H1 : incl [1%Z] [0%Z; 1%Z]) by (intros x [<-|[]]; right; left; reflexivity).
    unfold main.
    destruct (truthy (STEAM_ID cfg)); cbn [negb]; [|right; left; reflexivity].
    destruct (truthy (STEAM_API_KEY cfg)); cbn [negb]; [|right; left; reflexivity].
    destruct (truthy (ITAD_API_KEY cfg)); cbn [negb]; [|right; left; reflexivity].
    apply exits_within_bind.
    - apply (exits_within_more [1%Z]); [exact H1 | apply fetch_steam_wishlist_exits].
    - intros wishlist _. destruct wishlist as [|w wishlist]; [left; reflexivity|].
      apply exits_within_bind; [exact I|]. intros _ _.
      apply exits_within_bind.
      + apply (exits_within_more [1%Z]); [exact H1 | apply itad_lookup_ids_exits].
      + intros steam_to_itad _. cbv zeta.
        destruct (values steam_to_itad) as [|v vs] eqn:Ev; [right; left; reflexivity|].
        apply exits_within_bind; [exact I|]. intros _ _.
        apply exits_within_bind; [exact I|]. intros _ _.
        apply exits_within_bind.
        * apply (exits_within_more [1%Z]); [exact H1 | apply itad_get_prices_exits].
        * intros prices _. destruct prices as [|p prices]; [left; reflexivity|].
          unfold exits_within. rewrite display_results_returns. exact I. }
  unfold exits_within in H. unfold exit_status.
  destruct (result (main cfg svc args_sort)) as [u|c]; [left; reflexivity|].
  destruct H as [<-|[<-|[]]]; auto.
Qed.

Lemma X25_exit_status_is_0_or_1_witness :
  exit_status (main Sample.cfg Sample.svc_prices "price") = 0%Z \/
  exit_status (main Sample.cfg Sample.svc_prices "price") = 1%Z.
Proof.
  apply (X25_exit_status_is_0_or_1 Sample.cfg Sample.svc_prices "price").
  right. right. left. reflexivity.
Defined.

(* ------------------------------------------------------------------ *)
(** * More on the games table *)

(** X26. The sync writes the table only when both credentials are set and
    the service did not answer with an error status: a missing credential
    gives a ValueError, a 4xx or 5xx answer an HTTPError, and in both cases
    nothing is committed. *)
Theorem X26_sync_commits_only_on_success
        (home : string) (path_exists : string -> bool) (key id : option string)
        (response : Response (option (list Sync.OwnedGame))) (db : Sync.Table) :
  (truthy key = false \/ truthy id = false ->
   Sync.run home path_exists key id response db = Sync.ValueError) /\
  (truthy key = true -> truthy id = true -> ~ http_ok response ->
   Sync.run home path_exists key id response db = Sync.HTTPError) /\
  (forall t', Sync.run home path_exists key id response db = Sync.Committed t' ->
              truthy key = true /\ truthy id = true /\ http_ok response).
Proof.
  pose proof (http_ok_iff response) as Hok. rewrite run_cases.
  destruct (truthy key), (truthy id),
    (Z.leb 400 (status_code response) && Z.ltb (status_code response) 600)%bool,
    (all_bindable home path_exists (games_of response)); simpl;
    intuition congruence.
Qed.

Lemma X26_sync_commits_only_on_success_witness :
  Sync.run "/home/u" Sample.no_manifest None (Some "id") Sample.owned [Sample.old_row]
  = Sync.ValueError /\
  Sync.run "/home/u" Sample.no_manifest (Some "k") (Some "id") Fixture.forbidden
           [Sample.old_row] = Sync.HTTPError.
Proof.
  split.
  - apply (X26_sync_commits_only_on_success "/home/u" Sample.no_manifest None (Some "id")
             Sample.owned [Sample.old_row]).
    left. reflexivity.
  - apply (X26_sync_commits_only_on_success "/home/u" Sample.no_manifest (Some "k")
             (Some "id") Fixture.forbidden [Sample.old_row]); try reflexivity.
    unfold http_ok. simpl. lia.
Defined.

Section SyncMore.
Variable home : string.
Variable path_exists : string -> bool.

Lemma upsert_all_keeps (games : list Sync.OwnedGame) (t : Sync.Table) (r : Sync.Row) :
  In r t -> untouched games r = true -> In r (Sync.upsert_all home path_exists games t).
Proof.
  intros Hin Hu. rewrite upsert_all_split. apply in_or_app. left.
  apply filter_In. auto.
Qed.

Lemma upsert_all_app (pre post : list Sync.OwnedGame) (t : Sync.Table) :
  Sync.upsert_all home path_exists (pre ++ post) t
  = Sync.upsert_all home path_exists post (Sync.upsert_all home path_exists pre t).
Proof.
  unfold Sync.upsert_all. apply fold_left_app.
Qed.

Lemma upsert_all_last (pre : list Sync.OwnedGame) (g : Sync.OwnedGame)
      (post : list Sync.OwnedGame) (t : Sync.Table) :
  (forall g', In g' post -> Sync.g_appid g' <> Sync.g_appid g) ->
  In (Sync.row_of home path_exists g)
     (Sync.upsert_all home path_exists (pre ++ g :: post) t).
Proof.
  intros Hpost. rewrite upsert_all_app, upsert_all_cons.
  apply upsert_all_keeps.
  - unfold Sync.insert_or_replace. apply in_or_app. right. left. reflexivity.
  - unfold untouched. apply forallb_forall. intros g' Hg'.
    apply negb_true_iff, Z.eqb_neq. simpl. intros E. apply (Hpost g' Hg'). auto.
Qed.

Lemma row_with_unique (t : Sync.Table) (r : Sync.Row) :
  Sync.primary_key_ok t -> In r t -> row_with (Sync.appid r) t = Some r.
Proof.
  unfold Sync.primary_key_ok, row_with.
  induction t as [|r0 t IH]; simpl; intros Hnd Hin; [destruct Hin|].
  apply NoDup_cons_iff in Hnd as [Hfresh Hnd].
  destruct Hin as [->|Hin].
  - rewrite Z.eqb_refl. reflexivity.
  - destruct (Z.eqb_spec (Sync.appid r0) (Sync.appid r)) as [E|N].
    + exfalso. apply Hfresh. rewrite E. apply in_map, Hin.
    + apply IH; assumption.
Qed.
End SyncMore.

(** X27. A committed run leaves the rows of games that are not in the
    answer as they were, in their order; when the answer names no game (or
    has no "games" field), the table is unchanged. *)
Theorem X27_sync_keeps_other_rows
        (home : string) (path_exists : string -> bool) (key id : option string)
        (response : Response (option (list Sync.OwnedGame))) (db t' : Sync.Table) :
  Sync.run home path_exists key id response db = Sync.Committed t' ->
  filter (untouched (games_of response)) t' = filter (untouched (games_of response)) db /\
  (games_of response = [] -> t' = db).
Proof.
  rewrite run_cases.
  destruct (negb (truthy key) || negb (truthy id)); [discriminate|].
  destruct (Z.leb 400 (status_code response) && Z.ltb (status_code response) 600)%bool;
    [discriminate|].
  destruct (all_bindable home path_exists (games_of response)); [|discriminate].
  intros H. injection H as <-. split.
  - rewrite upsert_all_split, filter_app.
    rewrite (filter_none _ (Sync.upsert_all home path_exists (games_of response) [])).
    + rewrite app_nil_r. apply filter_all. intros r Hr. apply filter_In in Hr. apply Hr.
    + intros r. apply upsert_all_touched.
  - intros ->. reflexivity.
Qed.

Lemma X27_sync_keeps_other_rows_witness :
  filter (untouched (games_of Fixture.owned3))
         (Sync.upsert_all "/home/u" Sample.no_manifest (games_of Fixture.owned3)
                          [Sample.old_row; Fixture.row30])
  = [Fixture.row30].
Proof.
  destruct (X27_sync_keeps_other_rows "/home/u" Sample.no_manifest (Some "k") (Some "id")
              Fixture.owned3 [Sample.old_row; Fixture.row30]
              (Sync.upsert_all "/home/u" Sample.no_manifest (games_of Fixture.owned3)
                               [Sample.old_row; Fixture.row30]) eq_refl) as [H _].
  rewrite H. reflexivity.
Defined.

(** X28. After a committed run on a table that satisfies its key
    constraint, the row found under the appid of a game of the answer is
    the one written for the last game of that appid: its name as reported,
    playtime and last-played time defaulting to 0 when missing, and the
    installed flag 1 exactly when the game's appmanifest file exists. *)
Theorem X28_sync_row_lookup
        (home : string) (path_exists : string -> bool) (key id : option string)
        (response : Response (option (list Sync.OwnedGame))) (db t' : Sync.Table)
        (pre : list Sync.OwnedGame) (g : Sync.OwnedGame) (post : list Sync.OwnedGame) :
  Sync.primary_key_ok db ->
  Sync.run home path_exists key id response db = Sync.Committed t' ->
  games_of response = (pre ++ g :: post)%list ->
  (forall g', In g' post -> Sync.g_appid g' <> Sync.g_appid g) ->
  row_with (Sync.g_appid g) t'
  = Some {| Sync.appid := Sync.g_appid g;
            Sync.name := Sync.g_name g;
            Sync.playtime_forever :=
              match Sync.g_playtime_forever g with Some n => n | None => 0%Z end;
            Sync.last_played :=
              match Sync.g_rtime_last_played g with Some n => n | None => 0%Z end;
            Sync.installed :=
              if path_exists (Sync.steamapps_path home ++ "appmanifest_"
                              ++ str (Sync.g_appid g) ++ ".acf")
              then 1%Z else 0%Z |}.
Proof.
  intros Hdb. rewrite run_cases.
  destruct (negb (truthy key) || negb (truthy id)); [discriminate|].
  destruct (Z.leb 400 (status_code response) && Z.ltb (status_code response) 600)%bool;
    [discriminate|].
  destruct (all_bindable home path_exists (games_of response)); [|discriminate].
  intros H Hgames Hpost. injection H as <-. rewrite Hgames.
  apply (row_with_unique _ (Sync.row_of home path_exists g)).
  - apply upsert_all_key_ok, Hdb.
  - apply upsert_all_last, Hpost.
Qed.

Lemma X28_sync_row_lookup_witness :
  row_with 10 (Sync.upsert_all "/home/u" Sample.manifest_there (games_of Fixture.owned3)
                               [Sample.old_row; Fixture.row30])
  = Some {| Sync.appid := 10; Sync.name := "Alpha Remastered"; Sync.playtime_forever := 7;
            Sync.last_played := 1700000000; Sync.installed := 1 |}.
Proof.
  apply (X28_sync_row_lookup "/home/u" Sample.manifest_there (Some "k") (Some "id")
           Fixture.owned3 [Sample.old_row; Fixture.row30] _
           [Sample.game10; Fixture.game20] Fixture.game10_renamed []).
  - repeat constructor; simpl; intuition discriminate.
  - reflexivity.
  - reflexivity.
  - intros g' [].
Defined.

(* ------------------------------------------------------------------ *)
(** * What the run asks of the services *)

Lemma upper_ascii_twice (c : ascii) : upper_ascii (upper_ascii c) = upper_ascii c.
Proof.
  unfold upper_ascii.
  destruct ((97 <=? nat_of_ascii c)%nat && (nat_of_ascii c <=? 122)%nat)%bool eqn:E.
  - apply andb_true_iff in E as [E1 E2].
    apply Nat.leb_le in E1, E2.
    rewrite nat_ascii_embedding by lia.
    replace ((97 <=? nat_of_ascii c - 32)%nat) with false; [reflexivity|].
    symmetry. apply Nat.leb_gt. lia.
  - rewrite E. reflexivity.
Qed.

Lemma upper_twice (s : string) : upper (upper s) = upper s.
Proof.
  induction s as [|c s IH]; simpl; [reflexivity|].
  rewrite upper_ascii_twice, IH. reflexivity.
Qed.



(** X29. The aggregator does not depend on the case of an ASCII country
    code: called with the code or with its upper-case form, it makes the
    same request and gives the same result. *)
Theorem X29_country_case_is_irrelevant
        (cfg : Config) (svc : Services) (itad_ids : list string) (country : string) :
  is_ascii country = true ->
  itad_get_prices cfg svc itad_ids (upper country) = itad_get_prices cfg svc itad_ids country.
Proof.
  intros _. unfold itad_get_prices. rewrite upper_twice. reflexivity.
Qed.

Lemma X29_country_case_is_irrelevant_witness :
  itad_get_prices Sample.cfg Sample.svc_prices ["u1"] (upper "br")
  = itad_get_prices Sample.cfg Sample.svc_prices ["u1"] "br".
Proof.
  apply (X29_country_case_is_irrelevant Sample.cfg Sample.svc_prices ["u1"] "br").
  reflexivity.
Defined.


